(** * chicDifferentialTest: a shallow embedding and its properties

    The embedded program is [hicexplorer/chicDifferentialTest.py]: it reads
    two interaction files, tests every pair of rows with a chi-squared
    contingency test or Fisher's exact test, partitions the rows by verdict
    and writes three report files.

    Conventions of the embedding.
    - A Python [str] is a [string]; the text is taken to be ASCII, so a
      character is an [ascii]. The text of a file is the one Python's text
      mode hands over, line ends already translated to the newline character.
    - A Python [float] is a binary64 value, [PrimFloat.float].
    - A raised exception is the [Raise] case of [res]; [try]/[except] is a
      match on it.
    - The functions of SciPy and the Python builtins whose code is not part of
      the program are the fields of [Runtime]; [np.ceil] and
      [format(_, '.5f')] are given executable models ([np_ceil], [format_5f]).
    - Files and the logger are the [world] threaded by the monad [M]; opening a
      file for reading raises [OSError] when it is missing, and writing a file
      always succeeds. *)

From Stdlib Require Import String Ascii List ZArith Lia Bool Arith.
From Stdlib Require Import Floats Uint63 Decimal DecimalString.
From Stdlib Require Import Permutation.
Import ListNotations.

Set Warnings "-inexact-float".
Local Open Scope list_scope.
Local Open Scope string_scope.

(* ===================================================================== *)
(** ** Exceptions *)

Inductive exn : Type :=
| ValueError
| IndexError
| OSError
| OtherError.

Inductive res (A : Type) : Type :=
| Ok (a : A)
| Raise (e : exn).

Arguments Ok {A} a.
Arguments Raise {A} e.

Definition rbind {A B : Type} (r : res A) (k : A -> res B) : res B :=
  match r with
  | Ok a => k a
  | Raise e => Raise e
  end.

Declare Scope res_scope.
Delimit Scope res_scope with res.
Notation "x <- r ;; k" := (rbind r (fun x => k))
  (at level 61, r at next level, right associativity) : res_scope.
Notation "' p <- r ;; k" := (rbind r (fun p => k))
  (at level 61, p pattern, r at next level, right associativity) : res_scope.

(** [l[i]] for a non-negative index: [IndexError] out of range. *)
Definition index {A : Type} (l : list A) (i : nat) : res A :=
  match nth_error l i with
  | Some a => Ok a
  | None => Raise IndexError
  end.

(* ===================================================================== *)
(** ** Strings: the [str] methods the program calls *)

Definition newline : ascii := "010"%char.
Definition tab : ascii := "009"%char.
Definition dot : ascii := "."%char.

Definition NL : string := String newline "".
Definition TAB : string := String tab "".

(** [sep.join(parts)] *)
Fixpoint join (sep : string) (parts : list string) : string :=
  match parts with
  | [] => ""
  | [x] => x
  | x :: xs => x ++ sep ++ join sep xs
  end.

(** [s.split(sep)] for a one-character separator: never the empty list. *)
Fixpoint split (sep : ascii) (s : string) : list string :=
  match s with
  | "" => [""]
  | String c s' =>
      if Ascii.eqb c sep then "" :: split sep s'
      else match split sep s' with
           | [] => [String c ""]
           | h :: t => String c h :: t
           end
  end.

(** [c.isspace()] on ASCII: the controls 9..13 and 28..31, and the space. *)
Definition isspace (c : ascii) : bool :=
  let n := nat_of_ascii c in
  (((9 <=? n) && (n <=? 13)) || ((28 <=? n) && (n <=? 32)))%nat.

Fixpoint lstrip (s : string) : string :=
  match s with
  | "" => ""
  | String c s' => if isspace c then lstrip s' else s
  end.

Fixpoint rstrip (s : string) : string :=
  match s with
  | "" => ""
  | String c s' =>
      match rstrip s' with
      | "" => if isspace c then "" else String c ""
      | r => String c r
      end
  end.

(** [s.strip()] *)
Definition strip (s : string) : string := rstrip (lstrip s).

(** [str(n)] for a non-negative [int]. *)
Definition str_of_nat (n : nat) : string :=
  NilZero.string_of_uint (Nat.to_uint n).

(* ===================================================================== *)
(** ** Output paths (main, lines 178-182) *)

(** [outFileName = args.outFileName.split('.')] and the three names built
    from [outFileName[0]]. *)
Definition output_paths (outFileName : string) : res (string * string * string) :=
  (let parts := split dot outFileName in
   b1 <- index parts 0 ;;
   let outRejectedH0 := b1 ++ "_rejected_H0.bed" in
   b2 <- index parts 0 ;;
   let outAcceptedH0 := b2 ++ "_accepted_H0.bed" in
   b3 <- index parts 0 ;;
   let outNoTest := b3 ++ "_no_test.bed" in
   Ok (outRejectedH0, outAcceptedH0, outNoTest))%res.

(** The part of a name before its first ['.'] (all of it when there is none). *)
Fixpoint before_first_dot (s : string) : string :=
  match s with
  | "" => ""
  | String c s' => if Ascii.eqb c dot then "" else String c (before_first_dot s')
  end.

(** The base as the specification words it: the name with its last
    ['.']-delimited segment removed, the dots between the remaining segments
    kept; a name without a ['.'] has no extension and is its own base. *)
Definition spec_base (outFileName : string) : string :=
  match split dot outFileName with
  | [_] => outFileName
  | parts => join "." (removelast parts)
  end.

Definition spec_output_paths (outFileName : string) : string * string * string :=
  let base := spec_base outFileName in
  (base ++ "_rejected_H0.bed", base ++ "_accepted_H0.bed", base ++ "_no_test.bed").

Fixpoint count_char (c : ascii) (s : string) : nat :=
  match s with
  | "" => 0
  | String d s' => (if Ascii.eqb d c then 1 else 0) + count_char c s'
  end.

(* ===================================================================== *)
(** ** Floats *)

(** [a >= b], [a <= b] and [a == b] on two floats: the IEEE comparisons,
    all false when an operand is a NaN. *)
Definition float_ge (a b : float) : bool := PrimFloat.leb b a.
Definition float_le (a b : float) : bool := PrimFloat.leb a b.
Definition float_eq (a b : float) : bool := PrimFloat.eqb a b.

(** The value of a finite float is [mant * 2 ^ e] with [mant] signed. *)
Definition signed (s : bool) (m : positive) : Z :=
  if s then Z.neg m else Z.pos m.

(** The least integer not below [a * 2 ^ e]. *)
Definition ceilZ (a e : Z) : Z :=
  if (0 <=? e)%Z then (a * 2 ^ e)%Z else (- ((- a) / 2 ^ (- e)))%Z.

(** The float of an integer; exact below [2 ^ 53] in absolute value. *)
Definition float_of_Z (n : Z) : float :=
  if (n <? 0)%Z then PrimFloat.opp (PrimFloat.of_uint63 (Uint63.of_Z (- n)))
  else PrimFloat.of_uint63 (Uint63.of_Z n).

(** Model of [np.ceil] on one binary64 value: NaN, the infinities, the zeros
    and the floats without fractional bits are returned as they are; a result
    of zero keeps the sign of its argument. *)
Definition np_ceil (x : float) : float :=
  match Prim2SF x with
  | S754_finite s m e =>
      if (0 <=? e)%Z then x
      else
        let n := ceilZ (signed s m) e in
        if (n =? 0)%Z then (if s then PrimFloat.opp PrimFloat.zero else PrimFloat.zero)
        else float_of_Z n
  | _ => x
  end.

(** [np.ceil] on a nested list: element by element. *)
Definition np_ceil_table (t : list (list float)) : list (list float) :=
  map (map np_ceil) t.

(** Rounding of [num / den] ([den > 0]) to the nearest integer, ties to even. *)
Definition round_half_even (num den : Z) : Z :=
  let q := (num / den)%Z in
  let r := (num mod den)%Z in
  if (den <? 2 * r)%Z then (q + 1)%Z
  else if (2 * r =? den)%Z then (if Z.even q then q else (q + 1)%Z)
  else q.

Definition digit_char (d : Z) : ascii := ascii_of_nat (48 + Z.to_nat d).

(** The five decimal digits of [n mod 10 ^ 5], zero padded. *)
Definition digits5 (n : Z) : string :=
  String (digit_char ((n / 10000) mod 10))
    (String (digit_char ((n / 1000) mod 10))
      (String (digit_char ((n / 100) mod 10))
        (String (digit_char ((n / 10) mod 10))
          (String (digit_char (n mod 10)) "")))).

Definition str_of_Z_nonneg (n : Z) : string :=
  NilZero.string_of_uint (N.to_uint (Z.to_N n)).

(** Model of [format(x, '.5f')]: the exact value of [x] rounded to five
    decimals, ties to even, with a sign, an integer part, a point and five
    digits; [nan], [inf] and [-inf] for the special values. *)
Definition format_5f (x : float) : string :=
  match Prim2SF x with
  | S754_nan => "nan"
  | S754_infinity s => if s then "-inf" else "inf"
  | S754_zero s => (if s then "-" else "") ++ "0.00000"
  | S754_finite s m e =>
      let q :=
        if (0 <=? e)%Z then (Z.pos m * 2 ^ e * 100000)%Z
        else round_half_even (Z.pos m * 100000) (2 ^ (- e)) in
      (if s then "-" else "") ++ str_of_Z_nonneg (q / 100000) ++ "." ++ digits5 q
  end.

(* ===================================================================== *)
(** ** The runtime: SciPy, the builtins and the package version *)

Definition table : Type := list (list float).

Record Runtime : Type := {
  (** [hicexplorer._version.__version__] *)
  version : string;
  (** [float(s)] on a string; [None] when it raises [ValueError] *)
  float_of_str : string -> option float;
  (** [str(x)] on a float *)
  str_of_float : float -> string;
  (** [stats.chi2.ppf(q=q, df=1)] *)
  chi2_ppf : float -> float;
  (** [stats.chi2_contingency(t, correction=False)]: the statistic and the
      p-value (the degrees of freedom and the expected table are not used) *)
  chi2_contingency : table -> res (float * float);
  (** [stats.fisher_exact(t)]: the odds ratio and the p-value *)
  fisher_exact : table -> res (float * float)
}.

(** [float(s)] *)
Definition to_float (R : Runtime) (s : string) : res float :=
  match float_of_str R s with
  | Some x => Ok x
  | None => Raise ValueError
  end.

(** A [for] loop whose body may raise: the state is threaded through the
    elements in order and the first exception ends the loop. *)
Fixpoint for_each {S A : Type} (body : S -> A -> res S) (l : list A) (st : S) : res S :=
  match l with
  | [] => Ok st
  | a :: l' => rbind (body st a) (for_each body l')
  end.

(* ===================================================================== *)
(** ** Files and the logger *)

Record world : Type := {
  (** the text of the files that can be opened for reading *)
  files : string -> option string;
  (** the files written so far, oldest first: path and content *)
  written : list (string * string);
  (** the messages given to [log.info], oldest first *)
  logged : list string
}.

Definition M (A : Type) : Type := world -> res A * world.

Definition ret {A : Type} (a : A) : M A := fun w => (Ok a, w).

Definition bind {A B : Type} (m : M A) (k : A -> M B) : M B :=
  fun w =>
    match m w with
    | (Ok a, w') => k a w'
    | (Raise e, w') => (Raise e, w')
    end.

Definition lift {A : Type} (r : res A) : M A := fun w => (r, w).

Declare Scope M_scope.
Delimit Scope M_scope with M.
Notation "x <- m ;; k" := (bind m (fun x => k))
  (at level 61, m at next level, right associativity) : M_scope.
Notation "' p <- m ;; k" := (bind m (fun p => k))
  (at level 61, p pattern, m at next level, right associativity) : M_scope.
Notation "m ;;; k" := (bind m (fun _ => k))
  (at level 61, right associativity) : M_scope.

(** [open(path, 'r')] and reading the whole text. *)
Definition read_file (path : string) : M string :=
  fun w =>
    match files w path with
    | Some text => (Ok text, w)
    | None => (Raise OSError, w)
    end.

(** [open(path, 'w')] and all the [file.write] calls of one [with] block. *)
Definition write_file (path content : string) : M unit :=
  fun w =>
    (Ok tt, {| files := files w;
               written := (written w ++ [(path, content)])%list;
               logged := logged w |}).

(** [log.info(msg)] *)
Definition log_info (msg : string) : M unit :=
  fun w =>
    (Ok tt, {| files := files w;
               written := written w;
               logged := (logged w ++ [msg])%list |}).

(* ===================================================================== *)
(** ** readInteractionFile (lines 51-67) *)

(** [file.readline()]: the first line with its terminator, and the rest. *)
Fixpoint readline (s : string) : string * string :=
  match s with
  | "" => ("", "")
  | String c s' =>
      if Ascii.eqb c newline then (String c "", s')
      else let (l, r) := readline s' in (String c l, r)
  end.

(** [file.readlines()]: every line with its terminator; the last line may
    lack one. *)
Fixpoint readlines (s : string) : list string :=
  match s with
  | "" => []
  | String c s' =>
      if Ascii.eqb c newline then String c "" :: readlines s'
      else match readlines s' with
           | [] => [String c ""]
           | l :: ls => String c l :: ls
           end
  end.

Definition data_selector_viewpoint : nat := 9.
Definition data_selector_target : nat := 12.

Definition reader_state : Type := list (list string) * list (list float).

(** The body of the loop over the lines. *)
Definition read_line (R : Runtime) (st : reader_state) (line : string) : res reader_state :=
  let '(line_content, data) := st in
  let _line := split tab (strip line) in
  if (length _line <=? 1)%nat then Ok st
  else
    let line_content := (line_content ++ [_line])%list in
    (f1 <- index _line data_selector_viewpoint ;;
     x1 <- to_float R f1 ;;
     f2 <- index _line data_selector_target ;;
     x2 <- to_float R f2 ;;
     Ok (line_content, (data ++ [[x1; x2]])%list))%res.

(** The reader on the text of the file. *)
Definition read_interaction_text (R : Runtime) (text : string)
  : res (string * list (list string) * list (list float)) :=
  let (header, rest) := readline text in
  ('(line_content, data) <- for_each (read_line R) (readlines rest) ([], []) ;;
   Ok (header, line_content, data))%res.

Definition readInteractionFile (R : Runtime) (pInteractionFile : string)
  : M (string * list (list string) * list (list float)) :=
  (text <- read_file pInteractionFile ;;
   lift (read_interaction_text R text))%M.

(* ===================================================================== *)
(** ** The two tests (lines 70-107) *)

(** One entry of [test_result]: [(True, p)], [(False, p)] or [(None, None)]. *)
Definition verdict : Type := option bool * option float.

Definition chi2_state : Type := list verdict * nat.

(** The body of the loop of [chisquare_test]; the state is [test_result] and
    [zero_values_counter]. *)
Definition chisquare_row (R : Runtime) (critical_value : float)
    (st : chi2_state) (g : list float * list float) : res chi2_state :=
  let '(test_result, zero_values_counter) := st in
  let '(group1, group2) := g in
  match chi2_contingency R [group1; group2] with
  | Ok (chi2, p_value) =>
      if float_ge chi2 critical_value
      then Ok ((test_result ++ [(Some true, Some p_value)])%list, zero_values_counter)
      else Ok ((test_result ++ [(Some false, Some p_value)])%list, zero_values_counter)
  | Raise ValueError =>
      Ok ((test_result ++ [(None, None)])%list, S zero_values_counter)
  | Raise e => Raise e
  end.

Definition skipped_message (zero_values_counter : nat) : string :=
  str_of_nat zero_values_counter
  ++ " samples were not tested because at least one condition contained no data in both groups.".

Definition chisquare_test (R : Runtime) (pDataFile1 pDataFile2 : list (list float))
    (pAlpha : float) : M (list verdict) :=
  let critical_value := chi2_ppf R (PrimFloat.sub PrimFloat.one pAlpha) in
  ('(test_result, zero_values_counter) <-
      lift (for_each (chisquare_row R critical_value) (combine pDataFile1 pDataFile2) ([], 0)) ;;
   (if (0 <? zero_values_counter)%nat
    then log_info (skipped_message zero_values_counter)
    else ret tt) ;;;
   ret test_result)%M.

(** The body of the loop of [fisher_exact_test]. *)
Definition fisher_row (R : Runtime) (pAlpha : float)
    (test_result : list verdict) (g : list float * list float) : res (list verdict) :=
  let '(group1, group2) := g in
  match fisher_exact R (np_ceil_table [group1; group2]) with
  | Ok (odds, p_value) =>
      if float_le p_value pAlpha
      then Ok (test_result ++ [(Some true, Some p_value)])%list
      else Ok (test_result ++ [(Some false, Some p_value)])%list
  | Raise ValueError => Ok (test_result ++ [(None, None)])%list
  | Raise e => Raise e
  end.

Definition fisher_exact_test (R : Runtime) (pDataFile1 pDataFile2 : list (list float))
    (pAlpha : float) : res (list verdict) :=
  for_each (fisher_row R pAlpha) (combine pDataFile1 pDataFile2) [].

(* ===================================================================== *)
(** ** The partition of the rows (main, lines 162-172) *)

(** An entry of a bucket: the fields of the row in the first file, those of
    the row in the second file, and the p-value if there is one. *)
Definition triple : Type := list string * list string * option float.

Definition buckets : Type := list triple * list triple * list triple.

(** The body of the loop over [enumerate(test_result)]; the state is
    [rejected_h0], [non_rejected_h0] and [not_tested]. *)
Definition partition_step (line_content1 line_content2 : list (list string))
    (st : buckets) (ir : nat * verdict) : res buckets :=
  let '(rejected_h0, non_rejected_h0, not_tested) := st in
  let '(i, result) := ir in
  match fst result with
  | Some true =>
      (a <- index line_content1 i ;;
       b <- index line_content2 i ;;
       Ok ((rejected_h0 ++ [(a, b, snd result)])%list, non_rejected_h0, not_tested))%res
  | Some false =>
      (a <- index line_content1 i ;;
       b <- index line_content2 i ;;
       Ok (rejected_h0, (non_rejected_h0 ++ [(a, b, snd result)])%list, not_tested))%res
  | None =>
      (a <- index line_content1 i ;;
       b <- index line_content2 i ;;
       Ok (rejected_h0, non_rejected_h0, (not_tested ++ [(a, b, None)])%list))%res
  end.

(** [enumerate(l)] *)
Definition enumerate {A : Type} (l : list A) : list (nat * A) :=
  combine (seq 0 (length l)) l.

Definition partition (line_content1 line_content2 : list (list string))
    (test_result : list verdict) : res buckets :=
  for_each (partition_step line_content1 line_content2) (enumerate test_result) ([], [], []).

(* ===================================================================== *)
(** ** writeResult (lines 110-148) *)

Definition partition_sentence (pRejected : option bool) (pTest : string) : string :=
  match pRejected with
  | Some true =>
      "# This file contains the regions accepted as differential by " ++ pTest
      ++ " test (H0 was rejected) " ++ NL
  | Some false =>
      "# This file contains the regions rejected as differential by " ++ pTest
      ++ " test (H0 was accepted) " ++ NL
  | None =>
      "# This file contains the regions which were not tested because of violation of "
      ++ pTest ++ " test input conditions" ++ NL
  end.

(** The string [header] at the point where it is written. *)
Definition result_header (R : Runtime) (pRejected : option bool)
    (pViewpoint1 pViewpoint2 : list string) (pAlpha : float) (pTest : string) : string :=
  let header := "# Differential analysis result file of HiCExplorer's chicDifferentialTest version " in
  let header := header ++ version R in
  let header := header ++ NL in
  let header := header ++ partition_sentence pRejected pTest in
  let header := header ++ join " " ["# Used viewpoints regions: "; join " " pViewpoint1;
                                     " and "; join " " pViewpoint2; NL] in
  let header := header ++ "#" ++ NL in
  let header := header ++ "# Line 1 of a group contains data of viewpoint and target of sample 1, line 2 contains data of viewpoint and target of sample 2 " ++ NL in
  let header := header ++ "# line 3 the p-value of the chi-squared contingency test." ++ NL in
  let header := header ++ "#" ++ NL in
  let header := header ++ join " " ["# Alpha level"; str_of_float R pAlpha] in
  let header := header ++ NL in
  let header := header ++ join " " ["# Degrees of freedom"; "1"] in
  let header := header ++ NL in
  let header := header ++ NL in
  let header := header ++ NL ++ NL in
  header.

(** The body of the loop over [pData]: the text of the file so far and one
    entry give the text after the two [file.write] calls. *)
Definition write_data (file : string) (data : triple) : string :=
  let '(a, b, p) := data in
  let file :=
    match p with
    | Some p_value =>
        file ++ (join TAB a ++ NL ++ join TAB b ++ NL ++ format_5f p_value ++ NL)
    | None =>
        file ++ (join TAB a ++ NL ++ join TAB b ++ NL)
    end in
  file ++ NL.

(** Everything written to the file, in order. *)
Definition result_text (R : Runtime) (pData : list triple) (pRejected : option bool)
    (pHeaderOld pHeaderNew : string) (pViewpoint1 pViewpoint2 : list string)
    (pAlpha : float) (pTest : string) : string :=
  let file := "" in
  let file := file ++ result_header R pRejected pViewpoint1 pViewpoint2 pAlpha pTest in
  let file := file ++ pHeaderOld in
  fold_left write_data pData file.

Definition writeResult (R : Runtime) (pOutFileName : string) (pData : list triple)
    (pRejected : option bool) (pHeaderOld pHeaderNew : string)
    (pViewpoint1 pViewpoint2 : list string) (pAlpha : float) (pTest : string) : M unit :=
  write_file pOutFileName
    (result_text R pData pRejected pHeaderOld pHeaderNew pViewpoint1 pViewpoint2 pAlpha pTest).

(* ===================================================================== *)
(** ** main (lines 151-187) *)

(** The two values [--statisticTest] accepts. *)
Inductive statistic_test : Type :=
| test_fisher
| test_chi2.

Definition test_name (t : statistic_test) : string :=
  match t with
  | test_fisher => "fisher"
  | test_chi2 => "chi2"
  end.

(** The parsed command line. *)
Record arguments : Type := {
  interactionFile : string * string;
  alpha : float;
  outFileName : string;
  statisticTest : statistic_test
}.

(** One of the three calls at the end of [main]: the arguments are evaluated
    from left to right, then the file is written. *)
Definition write_bucket (R : Runtime) (path : string) (bucket : list triple)
    (pRejected : option bool) (header1 header2 : string)
    (line_content1 line_content2 : list (list string)) (args : arguments) : M unit :=
  (row1 <- lift (index line_content1 0) ;;
   row2 <- lift (index line_content2 0) ;;
   writeResult R path bucket pRejected header1 header2
     (firstn 4 row1) (firstn 4 row2) (alpha args) (test_name (statisticTest args)))%M.

(** The choice of the test (lines 157-160). *)
Definition run_statistic_test (R : Runtime) (t : statistic_test)
    (data1 data2 : list (list float)) (pAlpha : float) : M (list verdict) :=
  match t with
  | test_chi2 => chisquare_test R data1 data2 pAlpha
  | test_fisher => lift (fisher_exact_test R data1 data2 pAlpha)
  end.

Definition main (R : Runtime) (args : arguments) : M unit :=
  ('(header1, line_content1, data1) <- readInteractionFile R (fst (interactionFile args)) ;;
   '(header2, line_content2, data2) <- readInteractionFile R (snd (interactionFile args)) ;;
   test_result <- run_statistic_test R (statisticTest args) data1 data2 (alpha args) ;;
   '(rejected_h0, non_rejected_h0, not_tested) <-
     lift (partition line_content1 line_content2 test_result) ;;
   let header_new := fst (interactionFile args) ++ " " ++ snd (interactionFile args) in
   '(outRejectedH0, outAcceptedH0, outNoTest) <- lift (output_paths (outFileName args)) ;;
   write_bucket R outRejectedH0 rejected_h0 (Some true) header1 header2
     line_content1 line_content2 args ;;;
   write_bucket R outAcceptedH0 non_rejected_h0 (Some false) header1 header2
     line_content1 line_content2 args ;;;
   write_bucket R outNoTest not_tested None header1 header2
     line_content1 line_content2 args)%M.

(* ===================================================================== *)
(** ** Vocabulary of the statements *)

(** The outcome of a library call is a value or the [ValueError] that the
    [try] blocks catch. *)
Definition value_or_ValueError {A : Type} (r : res A) : bool :=
  match r with
  | Ok _ => true
  | Raise ValueError => true
  | Raise _ => false
  end.

Definition is_ValueError {A : Type} (r : res A) : bool :=
  match r with
  | Raise ValueError => true
  | _ => false
  end.

(** The tables the two tests are run on, row by row. *)
Definition chi2_tables (pDataFile1 pDataFile2 : list (list float)) : list table :=
  map (fun g => [fst g; snd g]) (combine pDataFile1 pDataFile2).

Definition fisher_tables (pDataFile1 pDataFile2 : list (list float)) : list table :=
  map (fun g => np_ceil_table [fst g; snd g]) (combine pDataFile1 pDataFile2).

(** A table is degenerate for a test when the test raises [ValueError] on it. *)
Definition degenerate (test : table -> res (float * float)) (t : table) : bool :=
  is_ValueError (test t).

Definition Rejected (p_value : float) : verdict := (Some true, Some p_value).
Definition Accepted (p_value : float) : verdict := (Some false, Some p_value).
Definition Untested : verdict := (None, None).

Definition is_rejected (v : verdict) : bool :=
  match fst v with Some true => true | _ => false end.
Definition is_accepted (v : verdict) : bool :=
  match fst v with Some false => true | _ => false end.
Definition is_untested (v : verdict) : bool :=
  match fst v with None => true | _ => false end.

(** The verdict of the chi-squared strategy on a table whose test returns or
    raises [ValueError]. *)
Definition chi2_verdict (R : Runtime) (critical_value : float) (t : table) : verdict :=
  match chi2_contingency R t with
  | Ok (chi2, p_value) =>
      if float_ge chi2 critical_value then Rejected p_value else Accepted p_value
  | Raise _ => Untested
  end.

(** The same for the Fisher strategy, on the table already rounded. *)
Definition fisher_verdict (R : Runtime) (pAlpha : float) (t : table) : verdict :=
  match fisher_exact R t with
  | Ok (_, p_value) =>
      if float_le p_value pAlpha then Rejected p_value else Accepted p_value
  | Raise _ => Untested
  end.

(** The critical value [chisquare_test] computes before its loop. *)
Definition critical_value_of (R : Runtime) (pAlpha : float) : float :=
  chi2_ppf R (PrimFloat.sub PrimFloat.one pAlpha).

(** Row [i] of the two files with its verdict, for every [i] in order. *)
Definition rows (line_content1 line_content2 : list (list string))
    (test_result : list verdict) : list (list string * list string * verdict) :=
  combine (combine line_content1 line_content2) test_result.

(** The bucket entry of a row: its p-value is kept unless it is untested. *)
Definition entry_of (r : list string * list string * verdict) : triple :=
  let '(a, b, v) := r in
  match fst v with
  | Some _ => (a, b, snd v)
  | None => (a, b, None)
  end.

(** The rows a selector keeps, in their order, as bucket entries. *)
Definition bucket (sel : verdict -> bool)
    (rs : list (list string * list string * verdict)) : list triple :=
  map entry_of (filter (fun r => sel (snd r)) rs).

(** The fields of a line as the reader sees them. *)
Definition fields (line : string) : list string := split tab (strip line).

(** A line is blank when it has at most one field. *)
Definition is_blank (line : string) : bool := (length (fields line) <=? 1)%nat.

(** The field at index [i] is there and parses as a float. *)
Definition numeric_at (R : Runtime) (fs : list string) (i : nat) : bool :=
  match nth_error fs i with
  | Some s => match float_of_str R s with Some _ => true | None => false end
  | None => false
  end.

(** The lines of a file after its header line. *)
Definition data_lines (text : string) : list string := readlines (snd (readline text)).

(** The exact value of the float [f] is the integer [n]. *)
Definition integer_value (f : spec_float) (n : Z) : Prop :=
  match f with
  | S754_zero _ => n = 0%Z
  | S754_finite s m e =>
      if (0 <=? e)%Z then n = (signed s m * 2 ^ e)%Z
      else signed s m = (n * 2 ^ (- e))%Z
  | _ => False
  end.

(** [n] is the least integer not below [a * 2 ^ e]. *)
Definition least_integer_not_below (n a e : Z) : Prop :=
  if (0 <=? e)%Z then n = (a * 2 ^ e)%Z
  else ((n - 1) * 2 ^ (- e) < a <= n * 2 ^ (- e))%Z.


(** The block of one bucket entry: the fields of the first record joined by
    tabs on one line, those of the second on the next, a line with the p-value
    if there is one, and an empty line. *)
Definition block (d : triple) : string :=
  let '(a, b, p) := d in
  join TAB a ++ NL ++ join TAB b ++ NL
  ++ match p with
     | Some p_value => format_5f p_value ++ NL
     | None => ""
     end
  ++ NL.

Fixpoint blocks (pData : list triple) : string :=
  match pData with
  | [] => ""
  | d :: rest => block d ++ blocks rest
  end.

(** The number of lines of a text that are not empty. *)
Definition nonblank_lines (s : string) : nat :=
  length (filter (fun l => negb (String.eqb l "")) (split newline s)).



(** A verdict of a test: a p-value comes with Rejected and Accepted and with
    them only. *)
Definition well_formed (v : verdict) : bool :=
  match v with
  | (Some _, Some _) => true
  | (None, None) => true
  | _ => false
  end.

Definition is_digit (c : ascii) : bool :=
  let n := nat_of_ascii c in ((48 <=? n) && (n <=? 57))%nat.

Fixpoint all_digits (s : string) : bool :=
  match s with
  | "" => true
  | String c s' => is_digit c && all_digits s'
  end.


(** A float that is a number: not a NaN and not an infinity. *)
Definition is_number (x : float) : bool :=
  match Prim2SF x with
  | S754_zero _ => true
  | S754_finite _ _ _ => true
  | _ => false
  end.

(* ===================================================================== *)
(** ** A runtime to run the program on concrete inputs

    A stand-in for SciPy: it raises [ValueError] on the tables SciPy refuses
    (a negative cell; for the chi-squared test also a zero expected
    frequency), computes Pearson's statistic in binary64, and returns made-up
    p-values. [float] reads unsigned decimal integers only. *)

Fixpoint digits_value (s : string) (acc : Z) : option Z :=
  match s with
  | "" => Some acc
  | String c s' =>
      let n := nat_of_ascii c in
      if ((48 <=? n) && (n <=? 57))%nat
      then digits_value s' (10 * acc + Z.of_nat (n - 48))%Z
      else None
  end.

Definition sample_float_of_str (s : string) : option float :=
  match s with
  | "" => None
  | _ => option_map float_of_Z (digits_value s 0)
  end.

Definition sample_chi2_contingency (t : table) : res (float * float) :=
  match t with
  | [[a; b]; [c; d]] =>
      let neg x := PrimFloat.ltb x PrimFloat.zero in
      let r1 := (a + b)%float in
      let r2 := (c + d)%float in
      let c1 := (a + c)%float in
      let c2 := (b + d)%float in
      let zero x := PrimFloat.eqb x PrimFloat.zero in
      if neg a || neg b || neg c || neg d then Raise ValueError
      else if zero r1 || zero r2 || zero c1 || zero c2 then Raise ValueError
      else
        let det := (a * d - b * c)%float in
        let chi2 := ((r1 + r2) * det * det / (r1 * r2 * c1 * c2))%float in
        Ok (chi2, (1 / (1 + chi2))%float)
  | _ => Raise ValueError
  end.

Definition sample_fisher_exact (t : table) : res (float * float) :=
  match t with
  | [[a; b]; [c; d]] =>
      let neg x := PrimFloat.ltb x PrimFloat.zero in
      if neg a || neg b || neg c || neg d then Raise ValueError
      else
        let det := (a * d - b * c)%float in
        Ok ((a * d / (b * c))%float, (1 / (1 + det * det))%float)
  | _ => Raise ValueError
  end.

Definition sample_runtime : Runtime := {|
  version := "3.7";
  float_of_str := sample_float_of_str;
  str_of_float := format_5f;
  chi2_ppf := fun _ => 4%float;
  chi2_contingency := sample_chi2_contingency;
  fisher_exact := sample_fisher_exact
|}.

Definition empty_world : world :=
  {| files := fun _ => None; written := []; logged := [] |}.

(** A row of thirteen fields with the numbers [v] and [t] at 9 and 12. *)
Definition sample_row (name v t : string) : string :=
  join TAB ["chr1"; "100"; "200"; name; "chr1"; "300"; "400"; "gene"; "0"; v; "0"; "0"; t]
  ++ NL.

(** Two input files: the first holds its header line only, the second a
    header line and two rows. *)
Definition sample_world : world :=
  {| files := fun path =>
       if String.eqb path "a.bed" then Some ("#header a" ++ NL)
       else if String.eqb path "b.bed"
            then Some ("#header b" ++ NL ++ sample_row "r1" "2" "0" ++ NL
                       ++ sample_row "r2" "0" "2")
            else None;
     written := [];
     logged := [] |}.

(** Two input files with three rows each; the second has a blank line
    between its rows. *)
Definition sample_world_rows : world :=
  {| files := fun path =>
       if String.eqb path "a.bed"
       then Some ("#header a" ++ NL ++ sample_row "r1" "0" "0"
                  ++ sample_row "r2" "1" "2" ++ sample_row "r3" "1" "2")
       else if String.eqb path "b.bed"
            then Some ("#header b" ++ NL ++ sample_row "r1" "2" "0" ++ NL
                       ++ sample_row "r2" "3" "4" ++ sample_row "r3" "1" "2")
            else None;
     written := [];
     logged := [] |}.

Definition sample_arguments : arguments :=
  {| interactionFile := ("a.bed", "b.bed");
     alpha := 0.05%float;
     outFileName := "out.bed";
     statisticTest := test_fisher |}.

(* ===================================================================== *)
(** ** Vocabulary of the further statements *)

(** The two numbers the reader takes from the fields of a row: [None] when
    field 9 or field 12 is missing or is not a float. *)
Definition numbers (R : Runtime) (fs : list string) : option (list float) :=
  match nth_error fs data_selector_viewpoint, nth_error fs data_selector_target with
  | Some f1, Some f2 =>
      match float_of_str R f1, float_of_str R f2 with
      | Some x1, Some x2 => Some [x1; x2]
      | _, _ => None
      end
  | _, _ => None
  end.

(** A line the reader accepts: blank, or with its two numbers. *)
Definition good_line (R : Runtime) (line : string) : bool :=
  is_blank line
  || match numbers R (fields line) with Some _ => true | None => false end.

(** The data lines that are not blank, in their order. *)
Definition kept_lines (text : string) : list string :=
  filter (fun line => negb (is_blank line)) (data_lines text).

(** All the lines of a text, one after the other. *)
Definition unlines (ls : list string) : string := fold_right append "" ls.



(** What the chi-squared strategy logs for a result: one message with the
    number of untested rows when there is one, nothing otherwise; the Fisher
    strategy logs nothing. *)
Definition skipped_log (t : statistic_test) (test_result : list verdict) : list string :=
  match t with
  | test_fisher => []
  | test_chi2 =>
      match length (filter is_untested test_result) with
      | O => []
      | S n => [skipped_message (S n)]
      end
  end.

(** A runtime whose two tests raise an exception that is not [ValueError] on
    a table with a NaN in its first cell, and are the sample tests on every
    other table. *)
Definition faulty_test (test : table -> res (float * float)) (t : table)
  : res (float * float) :=
  match t with
  | (a :: _) :: _ => if PrimFloat.eqb a a then test t else Raise OtherError
  | _ => test t
  end.

Definition faulty_runtime : Runtime := {|
  version := version sample_runtime;
  float_of_str := float_of_str sample_runtime;
  str_of_float := str_of_float sample_runtime;
  chi2_ppf := chi2_ppf sample_runtime;
  chi2_contingency := faulty_test sample_chi2_contingency;
  fisher_exact := faulty_test sample_fisher_exact
|}.

(** The sentence of the header that tells the partition, without its line
    end. *)
Definition partition_line (pRejected : option bool) (pTest : string) : string :=
  match pRejected with
  | Some true =>
      "# This file contains the regions accepted as differential by " ++ pTest
      ++ " test (H0 was rejected) "
  | Some false =>
      "# This file contains the regions rejected as differential by " ++ pTest
      ++ " test (H0 was accepted) "
  | None =>
      "# This file contains the regions which were not tested because of violation of "
      ++ pTest ++ " test input conditions"
  end.

(** The lines of the header of a result file. *)
Definition header_lines (R : Runtime) (pRejected : option bool)
    (pViewpoint1 pViewpoint2 : list string) (pAlpha : float) (pTest : string)
  : list string :=
  ["# Differential analysis result file of HiCExplorer's chicDifferentialTest version "
     ++ version R;
   partition_line pRejected pTest;
   "# Used viewpoints regions:  " ++ join " " pViewpoint1 ++ "  and  "
     ++ join " " pViewpoint2 ++ " ";
   "#";
   "# Line 1 of a group contains data of viewpoint and target of sample 1, line 2 contains data of viewpoint and target of sample 2 ";
   "# line 3 the p-value of the chi-squared contingency test.";
   "#";
   "# Alpha level " ++ str_of_float R pAlpha;
   "# Degrees of freedom 1"].

(** A line of the header is a comment: it starts with ['#']. *)
Definition is_comment (line : string) : bool :=
  match line with
  | String c _ => Ascii.eqb c "#"%char
  | "" => false
  end.

(** The last character of a text, if it has one. *)
Fixpoint last_char (s : string) : option ascii :=
  match s with
  | "" => None
  | String c "" => Some c
  | String _ s' => last_char s'
  end.

(** The first character of a text, if it has one. *)
Definition first_char (s : string) : option ascii :=
  match s with
  | "" => None
  | String c _ => Some c
  end.

(* ===================================================================== *)
(** * Properties *)

(* ===================================================================== *)
(** ** Strings *)

Lemma append_nil_r (s : string) : s ++ "" = s.
Proof. induction s as [|c s IH]; simpl; congruence. Qed.

Lemma append_assoc (a b c : string) : (a ++ b) ++ c = a ++ (b ++ c).
Proof. induction a as [|x a IH]; simpl; congruence. Qed.

Lemma count_char_app (c : ascii) (a b : string) :
  count_char c (a ++ b) = (count_char c a + count_char c b)%nat.
Proof. induction a as [|x a IH]; simpl; trivial. rewrite IH. lia. Qed.

Lemma split_app_sep (sep : ascii) (a rest : string) :
  count_char sep a = 0%nat ->
  split sep (a ++ String sep rest) = a :: split sep rest.
Proof.
  induction a as [|x a IH]; simpl.
  - now rewrite Ascii.eqb_refl.
  - destruct (Ascii.eqb x sep); simpl; [discriminate|].
    intros H. now rewrite (IH H).
Qed.


Lemma all_digits_app (a b : string) :
  all_digits (a ++ b) = all_digits a && all_digits b.
Proof. induction a as [|c a IH]; simpl; trivial. now rewrite IH, andb_assoc. Qed.





Lemma split_not_nil (sep : ascii) (s : string) : split sep s <> [].
Proof.
  destruct s as [|c s]; simpl; [discriminate|].
  destruct (Ascii.eqb c sep); [discriminate|].
  destruct (split sep s); discriminate.
Qed.

Lemma join_split (sep : ascii) (s : string) :
  join (String sep "") (split sep s) = s.
Proof.
  induction s as [|c s IH]; simpl; trivial.
  pose proof (split_not_nil sep s) as Hne.
  destruct (Ascii.eqb c sep) eqn:E.
  - apply Ascii.eqb_eq in E. subst c.
    destruct (split sep s) as [|h t]; [congruence|].
    rewrite <- IH. reflexivity.
  - destruct (split sep s) as [|h t]; [congruence|].
    destruct t as [|h' t]; rewrite <- IH; reflexivity.
Qed.

Lemma split_length (sep : ascii) (s : string) :
  length (split sep s) = S (count_char sep s).
Proof.
  induction s as [|c s IH]; simpl; trivial.
  destruct (Ascii.eqb c sep); simpl; [now rewrite IH|].
  destruct (split sep s); simpl in *; congruence.
Qed.

Lemma split_parts_no_sep (sep : ascii) (s : string) :
  Forall (fun part => count_char sep part = 0%nat) (split sep s).
Proof.
  induction s as [|c s IH]; simpl; [now constructor|].
  destruct (Ascii.eqb c sep) eqn:E; [now constructor|].
  destruct (split sep s) as [|h t]; [constructor; simpl; [now rewrite E | constructor]|].
  inversion IH; subst. constructor; trivial. simpl. now rewrite E.
Qed.

Lemma count_char_join (sep : ascii) (parts : list string) :
  Forall (fun part => count_char sep part = 0%nat) parts ->
  count_char sep (join (String sep "") parts) = Nat.pred (length parts).
Proof.
  induction 1 as [|x l Hx Hl IH]; trivial.
  destruct l as [|y l]; [exact Hx|].
  change (join (String sep "") (x :: y :: l))
    with (x ++ String sep (join (String sep "") (y :: l))).
  rewrite count_char_app, Hx. cbn [count_char]. rewrite Ascii.eqb_refl, IH. reflexivity.
Qed.


(** ** Output paths *)

Lemma split_head (s : string) :
  exists t, split dot s = before_first_dot s :: t.
Proof.
  induction s as [|c s [t IH]]; simpl.
  - now exists [].
  - destruct (Ascii.eqb c dot).
    + now eexists.
    + rewrite IH. now eexists.
Qed.

Lemma before_first_dot_no_dot (s : string) :
  count_char dot (before_first_dot s) = 0%nat.
Proof.
  induction s as [|c s IH]; simpl; trivial.
  destruct (Ascii.eqb c dot) eqn:E; simpl; trivial.
  now rewrite E.
Qed.

Lemma before_first_dot_prefix (s : string) :
  s = before_first_dot s \/ exists rest, s = before_first_dot s ++ "." ++ rest.
Proof.
  induction s as [|c s IH]; simpl.
  - now left.
  - destruct (Ascii.eqb c dot) eqn:E.
    + apply Ascii.eqb_eq in E. subst c. right. now exists s.
    + destruct IH as [IH | [rest IH]].
      * left. now rewrite <- IH.
      * right. exists rest. simpl. f_equal. exact IH.
Qed.

Lemma split_no_sep (sep : ascii) (s : string) :
  count_char sep s = 0%nat -> split sep s = [s].
Proof.
  induction s as [|c s IH]; simpl; trivial.
  destruct (Ascii.eqb c sep); simpl; [discriminate|].
  intros H. now rewrite IH.
Qed.

Lemma split_one_dot (s : string) :
  count_char dot s = 1%nat -> exists rest, split dot s = [before_first_dot s; rest].
Proof.
  induction s as [|c s IH]; simpl; [discriminate|].
  destruct (Ascii.eqb c dot); simpl.
  - intros H. injection H as H. rewrite (split_no_sep _ _ H). now eexists.
  - intros H. destruct (IH H) as [rest ->]. now eexists.
Qed.

Lemma spec_base_at_most_one_dot (s : string) :
  (count_char dot s <= 1)%nat -> spec_base s = before_first_dot s.
Proof.
  intros H. unfold spec_base.
  destruct (count_char dot s) as [|[|n]] eqn:E; [| |lia].
  - rewrite (split_no_sep _ _ E).
    destruct (before_first_dot_prefix s) as [Hs | [rest Hs]]; [congruence|].
    exfalso. rewrite Hs in E. clear -E.
    induction (before_first_dot s) as [|c b IH]; simpl in E; [discriminate|].
    destruct (Ascii.eqb c dot); simpl in E; [discriminate | auto].
  - destruct (split_one_dot _ E) as [rest ->]. reflexivity.
Qed.

Lemma removelast_Forall {A : Type} (P : A -> Prop) (l : list A) :
  Forall P l -> Forall P (removelast l).
Proof.
  induction 1 as [|x l Hx Hl IH]; simpl; [constructor|].
  destruct l; [constructor | now constructor].
Qed.

Lemma removelast_length {A : Type} (l : list A) :
  length (removelast l) = Nat.pred (length l).
Proof.
  induction l as [|x l IH]; simpl; trivial.
  destruct l; simpl in *; [reflexivity | now rewrite IH].
Qed.

(** The base of the specification has one dot less than the name. *)
Lemma spec_base_dots (s : string) :
  count_char dot (spec_base s) = Nat.pred (count_char dot s).
Proof.
  unfold spec_base.
  pose proof (split_length dot s) as HL.
  pose proof (split_parts_no_sep dot s) as HF.
  destruct (split dot s) as [|x [|y l]] eqn:E; [discriminate| |].
  - simpl in HL. injection HL as HL. rewrite <- HL. reflexivity.
  - change "." with (String dot "").
    rewrite count_char_join by now apply removelast_Forall.
    rewrite removelast_length, HL. reflexivity.
Qed.

Lemma output_paths_total (outFileName : string) :
  exists p1 p2 p3, output_paths outFileName = Ok (p1, p2, p3).
Proof.
  unfold output_paths. destruct (split_head outFileName) as [t ->]. cbn. eauto.
Qed.

(** C1, as the program computes it: the base of the three output paths is
    the part of [outFileName] before its FIRST ['.'] (the whole name when it
    has none), so the base holds no ['.'] and [outFileName] is the base or the
    base, a ['.'] and a rest; the three paths are those of the name without
    its last extension segment exactly when the name has at most one ['.']. *)
Theorem C1_output_paths_first_segment (outFileName : string) :
  output_paths outFileName =
    Ok (before_first_dot outFileName ++ "_rejected_H0.bed",
        before_first_dot outFileName ++ "_accepted_H0.bed",
        before_first_dot outFileName ++ "_no_test.bed")
  /\ count_char dot (before_first_dot outFileName) = 0%nat
  /\ (outFileName = before_first_dot outFileName
      \/ exists rest, outFileName = before_first_dot outFileName ++ "." ++ rest)
  /\ ((count_char dot outFileName <= 1)%nat <->
      Ok (spec_output_paths outFileName) = output_paths outFileName).
Proof.
  assert (Hp : output_paths outFileName =
    Ok (before_first_dot outFileName ++ "_rejected_H0.bed",
        before_first_dot outFileName ++ "_accepted_H0.bed",
        before_first_dot outFileName ++ "_no_test.bed")).
  { unfold output_paths. destruct (split_head outFileName) as [t ->]. reflexivity. }
  split; [exact Hp|].
  split; [apply before_first_dot_no_dot|].
  split; [apply before_first_dot_prefix|].
  rewrite Hp. unfold spec_output_paths. split.
  - intros H. now rewrite (spec_base_at_most_one_dot _ H).
  - intros [= H _ _]. apply (f_equal (count_char dot)) in H.
    rewrite !count_char_app, spec_base_dots, before_first_dot_no_dot in H. lia.
Qed.

(** C1 at a name with one ['.']: both readings give [out]. *)
Lemma C1_output_paths_witness :
  output_paths "out.bed" =
    Ok ("out_rejected_H0.bed", "out_accepted_H0.bed", "out_no_test.bed")
  /\ Ok (spec_output_paths "out.bed") = output_paths "out.bed".
Proof.
  split.
  - exact (proj1 (C1_output_paths_first_segment "out.bed")).
  - apply (proj1 (proj2 (proj2 (proj2 (C1_output_paths_first_segment "out.bed"))))).
    vm_compute. lia.
Defined.

(** C1 as the specification words it fails at [run.v2.bed]: the program
    derives [run_...], the last-segment reading [run.v2_...]. *)
Lemma C1_last_segment_counterexample :
  output_paths "run.v2.bed" =
    Ok ("run_rejected_H0.bed", "run_accepted_H0.bed", "run_no_test.bed")
  /\ spec_output_paths "run.v2.bed" =
    ("run.v2_rejected_H0.bed", "run.v2_accepted_H0.bed", "run.v2_no_test.bed")
  /\ (output_paths "run.v2.bed" = Ok (spec_output_paths "run.v2.bed") -> False).
Proof.
  split; [reflexivity|]. split; [reflexivity|]. vm_compute. discriminate.
Qed.

(* ===================================================================== *)
(** ** Float comparisons *)

Lemma SFcompare_Eq_sym (x y : spec_float) :
  SFcompare x y = Some Eq -> SFcompare y x = Some Eq.
Proof.
  destruct x as [sx|sx| |sx mx ex], y as [sy|sy| |sy my ey]; simpl;
    try discriminate; try reflexivity;
    try (destruct sx; discriminate); try (destruct sy; discriminate).
  - destruct sx, sy; try discriminate; reflexivity.
  - destruct sx, sy; try discriminate.
    + destruct (Z.compare ex ey) eqn:E; try discriminate.
      apply Z.compare_eq in E. subst ey. rewrite Z.compare_refl.
      intros H. f_equal.
      destruct (Pos.compare_cont Eq mx my) eqn:Em; try discriminate.
      apply Pos.compare_eq in Em. subst my.
      change (CompOpp (Pos.compare mx mx) = Eq). now rewrite Pos.compare_refl.
    + destruct (Z.compare ex ey) eqn:E; try discriminate.
      apply Z.compare_eq in E. subst ey. rewrite Z.compare_refl.
      intros H. f_equal. injection H as H.
      apply Pos.compare_eq in H. subst my. apply Pos.compare_refl.
Qed.

(** Two floats that compare equal with [==] also compare with [>=] and [<=]. *)
Lemma float_eq_ge (a b : float) : float_eq a b = true -> float_ge a b = true.
Proof.
  unfold float_eq, float_ge. rewrite FloatAxioms.eqb_spec, FloatAxioms.leb_spec.
  unfold SFeqb, SFleb.
  destruct (SFcompare (Prim2SF a) (Prim2SF b)) as [[| |]|] eqn:E; try discriminate.
  now rewrite (SFcompare_Eq_sym _ _ E).
Qed.

Lemma float_eq_le (a b : float) : float_eq a b = true -> float_le a b = true.
Proof.
  unfold float_eq, float_le. rewrite FloatAxioms.eqb_spec, FloatAxioms.leb_spec.
  unfold SFeqb, SFleb.
  now destruct (SFcompare (Prim2SF a) (Prim2SF b)) as [[| |]|].
Qed.

(** With the strict comparisons the boundary would fall on the other side. *)
Lemma float_eq_not_lt (a b : float) :
  float_eq a b = true -> PrimFloat.ltb a b = false /\ PrimFloat.ltb b a = false.
Proof.
  unfold float_eq. rewrite FloatAxioms.eqb_spec, !FloatAxioms.ltb_spec. unfold SFeqb, SFltb.
  destruct (SFcompare (Prim2SF a) (Prim2SF b)) as [[| |]|] eqn:E; try discriminate.
  now rewrite (SFcompare_Eq_sym _ _ E).
Qed.

(* ===================================================================== *)
(** ** Loops *)

Lemma for_each_app {S A : Type} (body : S -> A -> res S) (l1 l2 : list A) (st : S) :
  for_each body (l1 ++ l2)%list st = rbind (for_each body l1 st) (for_each body l2).
Proof.
  revert st. induction l1 as [|a l1 IH]; intros st; simpl; trivial.
  destruct (body st a); simpl; auto.
Qed.

(* ===================================================================== *)
(** ** The two tests *)

Lemma chisquare_row_verdict (R : Runtime) (cv : float) (tr : list verdict) (c : nat)
    (group1 group2 : list float) :
  value_or_ValueError (chi2_contingency R [group1; group2]) = true ->
  chisquare_row R cv (tr, c) (group1, group2) =
    Ok ((tr ++ [chi2_verdict R cv [group1; group2]])%list,
        ((if degenerate (chi2_contingency R) [group1; group2] then 1 else 0) + c)%nat).
Proof.
  unfold chisquare_row, chi2_verdict, degenerate.
  destruct (chi2_contingency R [group1; group2]) as [[chi2 p]|[]]; simpl;
    try discriminate; trivial.
  now destruct (float_ge chi2 cv).
Qed.

Lemma chisquare_loop (R : Runtime) (cv : float) (d1 d2 : list (list float)) :
  forall (tr : list verdict) (c : nat),
  forallb (fun t => value_or_ValueError (chi2_contingency R t)) (chi2_tables d1 d2) = true ->
  for_each (chisquare_row R cv) (combine d1 d2) (tr, c) =
    Ok ((tr ++ map (chi2_verdict R cv) (chi2_tables d1 d2))%list,
        (length (filter (degenerate (chi2_contingency R)) (chi2_tables d1 d2)) + c)%nat).
Proof.
  unfold chi2_tables.
  induction (combine d1 d2) as [|[g1 g2] rows IH]; intros tr c H;
    cbn [for_each map forallb filter fst snd] in *.
  - now rewrite app_nil_r.
  - apply andb_true_iff in H. destruct H as [H1 H2].
    rewrite (chisquare_row_verdict _ _ _ _ _ _ H1). cbn [rbind].
    rewrite (IH _ _ H2). rewrite <- app_assoc. cbn [app]. do 2 f_equal.
    destruct (degenerate (chi2_contingency R) [g1; g2]); cbn [length]; lia.
Qed.

Lemma fisher_row_verdict (R : Runtime) (pAlpha : float) (tr : list verdict)
    (group1 group2 : list float) :
  value_or_ValueError (fisher_exact R (np_ceil_table [group1; group2])) = true ->
  fisher_row R pAlpha tr (group1, group2) =
    Ok (tr ++ [fisher_verdict R pAlpha (np_ceil_table [group1; group2])])%list.
Proof.
  unfold fisher_row, fisher_verdict.
  destruct (fisher_exact R (np_ceil_table [group1; group2])) as [[odds p]|[]]; simpl;
    try discriminate; trivial.
  now destruct (float_le p pAlpha).
Qed.

Lemma fisher_loop (R : Runtime) (pAlpha : float) (d1 d2 : list (list float)) :
  forall tr : list verdict,
  forallb (fun t => value_or_ValueError (fisher_exact R t)) (fisher_tables d1 d2) = true ->
  for_each (fisher_row R pAlpha) (combine d1 d2) tr =
    Ok (tr ++ map (fisher_verdict R pAlpha) (fisher_tables d1 d2))%list.
Proof.
  unfold fisher_tables.
  induction (combine d1 d2) as [|[g1 g2] rows IH]; intros tr H;
    cbn [for_each map forallb fst snd] in *.
  - now rewrite app_nil_r.
  - apply andb_true_iff in H. destruct H as [H1 H2].
    rewrite (fisher_row_verdict _ _ _ _ _ H1). cbn [rbind].
    rewrite (IH _ H2). now rewrite <- app_assoc.
Qed.

(** What [chisquare_test] returns and logs when no call raises anything but
    [ValueError]. *)
Lemma chisquare_test_run (R : Runtime) (d1 d2 : list (list float)) (pAlpha : float) (w : world) :
  forallb (fun t => value_or_ValueError (chi2_contingency R t)) (chi2_tables d1 d2) = true ->
  let skipped := length (filter (degenerate (chi2_contingency R)) (chi2_tables d1 d2)) in
  chisquare_test R d1 d2 pAlpha w =
    (Ok (map (chi2_verdict R (critical_value_of R pAlpha)) (chi2_tables d1 d2)),
     {| files := files w;
        written := written w;
        logged := (logged w ++ match skipped with
                               | O => []
                               | _ => [skipped_message skipped]
                               end)%list |}).
Proof.
  intros H skipped. unfold chisquare_test, bind, lift.
  rewrite (chisquare_loop R _ d1 d2 [] 0 H). simpl.
  rewrite Nat.add_0_r. fold skipped. unfold critical_value_of.
  destruct skipped; simpl.
  - unfold ret. rewrite app_nil_r. now destruct w.
  - reflexivity.
Qed.

Lemma fisher_exact_test_run (R : Runtime) (d1 d2 : list (list float)) (pAlpha : float) :
  forallb (fun t => value_or_ValueError (fisher_exact R t)) (fisher_tables d1 d2) = true ->
  fisher_exact_test R d1 d2 pAlpha =
    Ok (map (fisher_verdict R pAlpha) (fisher_tables d1 d2)).
Proof.
  intros H. unfold fisher_exact_test. now rewrite (fisher_loop R pAlpha d1 d2 [] H).
Qed.

Lemma combine_truncated {A B : Type} (l1 : list A) (l2 : list B) :
  combine (firstn (Nat.min (length l1) (length l2)) l1)
          (firstn (Nat.min (length l1) (length l2)) l2) = combine l1 l2.
Proof.
  revert l2. induction l1 as [|a l1 IH]; intros [|b l2]; simpl; trivial.
  now rewrite IH.
Qed.

Lemma chi2_tables_length (d1 d2 : list (list float)) :
  length (chi2_tables d1 d2) = Nat.min (length d1) (length d2).
Proof. unfold chi2_tables. now rewrite length_map, length_combine. Qed.

Lemma fisher_tables_length (d1 d2 : list (list float)) :
  length (fisher_tables d1 d2) = Nat.min (length d1) (length d2).
Proof. unfold fisher_tables. now rewrite length_map, length_combine. Qed.

(** C2: in both strategies the comparison is inclusive toward rejection. In
    the chi-squared strategy a tested row is Rejected when its statistic is
    [>=] the critical value and Accepted otherwise, so a statistic equal to the
    critical value gives Rejected; in the Fisher strategy a tested row is
    Rejected when its p-value is [<=] alpha and Accepted otherwise, so a
    p-value equal to alpha gives Rejected. At the boundary the strict
    comparisons [>] and [<] are false. The p-value is recorded in both
    outcomes. *)
Theorem C2_boundary_comparisons_inclusive
    (R : Runtime) (d1 d2 : list (list float)) (pAlpha : float) (w : world)
    (i : nat) (t : table) (x p_value : float) :
  (forallb (fun t => value_or_ValueError (chi2_contingency R t)) (chi2_tables d1 d2) = true ->
   nth_error (chi2_tables d1 d2) i = Some t ->
   chi2_contingency R t = Ok (x, p_value) ->
   exists tr w',
     chisquare_test R d1 d2 pAlpha w = (Ok tr, w')
     /\ nth_error tr i =
          Some (if float_ge x (critical_value_of R pAlpha)
                then Rejected p_value else Accepted p_value)
     /\ (float_eq x (critical_value_of R pAlpha) = true ->
         nth_error tr i = Some (Rejected p_value)
         /\ PrimFloat.ltb (critical_value_of R pAlpha) x = false))
  /\
  (forallb (fun t => value_or_ValueError (fisher_exact R t)) (fisher_tables d1 d2) = true ->
   nth_error (fisher_tables d1 d2) i = Some t ->
   fisher_exact R t = Ok (x, p_value) ->
   exists tr,
     fisher_exact_test R d1 d2 pAlpha = Ok tr
     /\ nth_error tr i =
          Some (if float_le p_value pAlpha then Rejected p_value else Accepted p_value)
     /\ (float_eq p_value pAlpha = true ->
         nth_error tr i = Some (Rejected p_value)
         /\ PrimFloat.ltb p_value pAlpha = false)).
Proof.
  split.
  - intros H Hi Ht. rewrite (chisquare_test_run R d1 d2 pAlpha w H).
    do 2 eexists. split; [reflexivity|].
    assert (E : nth_error (map (chi2_verdict R (critical_value_of R pAlpha))
                             (chi2_tables d1 d2)) i
                = Some (if float_ge x (critical_value_of R pAlpha)
                        then Rejected p_value else Accepted p_value)).
    { rewrite nth_error_map, Hi. simpl. unfold chi2_verdict. now rewrite Ht. }
    split; [exact E|].
    intros Heq. rewrite E. rewrite (float_eq_ge _ _ Heq).
    split; [reflexivity | apply (float_eq_not_lt _ _ Heq)].
  - intros H Hi Ht. rewrite (fisher_exact_test_run R d1 d2 pAlpha H).
    eexists. split; [reflexivity|].
    assert (E : nth_error (map (fisher_verdict R pAlpha) (fisher_tables d1 d2)) i
                = Some (if float_le p_value pAlpha
                        then Rejected p_value else Accepted p_value)).
    { rewrite nth_error_map, Hi. simpl. unfold fisher_verdict. now rewrite Ht. }
    split; [exact E|].
    intros Heq. rewrite E. rewrite (float_eq_le _ _ Heq).
    split; [reflexivity | apply (float_eq_not_lt _ _ Heq)].
Qed.

(** C2 on the sample runtime: the table [[2,0],[0,2]] has statistic 4, the
    sample critical value, and is Rejected; the table [[1,2],[3,4]] has the
    sample p-value 0.2, equal to alpha, and is Rejected. *)
Lemma C2_boundary_witness :
  (exists tr w',
     chisquare_test sample_runtime [[2; 0]]%float [[0; 2]]%float 0.05%float empty_world
       = (Ok tr, w')
     /\ nth_error tr 0 = Some (Rejected 0.2%float))
  /\
  (exists tr,
     fisher_exact_test sample_runtime [[1; 2]]%float [[3; 4]]%float 0.2%float = Ok tr
     /\ nth_error tr 0 = Some (Rejected 0.2%float)).
Proof.
  split.
  - destruct (proj1 (C2_boundary_comparisons_inclusive sample_runtime
                       [[2; 0]]%float [[0; 2]]%float 0.05%float empty_world
                       0 [[2; 0]; [0; 2]]%float 4%float 0.2%float))
      as (tr & w' & Hrun & _ & Heq);
      [vm_compute; reflexivity | reflexivity | vm_compute; reflexivity |].
    exists tr, w'. split; [exact Hrun|]. apply Heq. vm_compute. reflexivity.
  - destruct (proj2 (C2_boundary_comparisons_inclusive sample_runtime
                       [[1; 2]]%float [[3; 4]]%float 0.2%float empty_world
                       0 [[1; 2]; [3; 4]]%float (4 / 6)%float 0.2%float))
      as (tr & Hrun & _ & Heq);
      [vm_compute; reflexivity | vm_compute; reflexivity | vm_compute; reflexivity |].
    exists tr. split; [exact Hrun|]. apply Heq. vm_compute. reflexivity.
Defined.



(** C7: both strategies pair the rows with [zip], so they see the two
    sequences only up to the length of the shorter one, and return one verdict
    per pair: the length of the result is the minimum of the two lengths. *)
Theorem C7_unequal_lengths_truncate
    (R : Runtime) (d1 d2 : list (list float)) (pAlpha : float) (w : world) :
  let n := Nat.min (length d1) (length d2) in
  chisquare_test R d1 d2 pAlpha w = chisquare_test R (firstn n d1) (firstn n d2) pAlpha w
  /\ fisher_exact_test R d1 d2 pAlpha = fisher_exact_test R (firstn n d1) (firstn n d2) pAlpha
  /\ (forallb (fun t => value_or_ValueError (chi2_contingency R t)) (chi2_tables d1 d2) = true ->
      exists tr w', chisquare_test R d1 d2 pAlpha w = (Ok tr, w') /\ length tr = n)
  /\ (forallb (fun t => value_or_ValueError (fisher_exact R t)) (fisher_tables d1 d2) = true ->
      exists tr, fisher_exact_test R d1 d2 pAlpha = Ok tr /\ length tr = n).
Proof.
  intros n. split; [|split; [|split]].
  - unfold chisquare_test. subst n. now rewrite combine_truncated.
  - unfold fisher_exact_test. subst n. now rewrite combine_truncated.
  - intros H. rewrite (chisquare_test_run R d1 d2 pAlpha w H). do 2 eexists.
    split; [reflexivity|]. rewrite length_map. apply chi2_tables_length.
  - intros H. rewrite (fisher_exact_test_run R d1 d2 pAlpha H). eexists.
    split; [reflexivity|]. rewrite length_map. apply fisher_tables_length.
Qed.

(** C7 on the sample runtime: three rows against one row give one verdict. *)
Lemma C7_unequal_lengths_witness :
  (exists tr w',
     chisquare_test sample_runtime [[2; 0]; [1; 1]; [3; 3]]%float [[0; 2]]%float
         0.05%float empty_world = (Ok tr, w')
     /\ length tr = 1%nat)
  /\ (exists tr,
        fisher_exact_test sample_runtime [[2; 0]; [1; 1]; [3; 3]]%float [[0; 2]]%float
            0.05%float = Ok tr
        /\ length tr = 1%nat).
Proof.
  pose proof (C7_unequal_lengths_truncate sample_runtime
                [[2; 0]; [1; 1]; [3; 3]]%float [[0; 2]]%float 0.05%float empty_world)
    as (_ & _ & Hc & Hf).
  split.
  - apply Hc. vm_compute. reflexivity.
  - apply Hf. vm_compute. reflexivity.
Defined.

(* ===================================================================== *)
(** ** The partition *)

Lemma verdict_exactly_one (v : verdict) :
  (is_rejected v = true /\ is_accepted v = false /\ is_untested v = false)
  \/ (is_rejected v = false /\ is_accepted v = true /\ is_untested v = false)
  \/ (is_rejected v = false /\ is_accepted v = false /\ is_untested v = true).
Proof. destruct v as [[[|]|] p]; cbv; auto. Qed.

Lemma partition_loop (lc1 lc2 : list (list string)) :
  forall (tr : list verdict) (k : nat) (l1 l2 : list (list string)) (r a n : list triple),
  (length tr <= length l1)%nat ->
  (length tr <= length l2)%nat ->
  (forall i, nth_error lc1 (k + i) = nth_error l1 i) ->
  (forall i, nth_error lc2 (k + i) = nth_error l2 i) ->
  for_each (partition_step lc1 lc2) (combine (seq k (length tr)) tr) (r, a, n) =
    Ok ((r ++ bucket is_rejected (rows l1 l2 tr))%list,
        (a ++ bucket is_accepted (rows l1 l2 tr))%list,
        (n ++ bucket is_untested (rows l1 l2 tr))%list).
Proof.
  induction tr as [|v tr IH]; intros k l1 l2 r a n H1 H2 E1 E2.
  - unfold bucket, rows. rewrite !combine_nil. cbn. now rewrite !app_nil_r.
  - destruct l1 as [|x l1]; [simpl in H1; lia|].
    destruct l2 as [|y l2]; [simpl in H2; lia|].
    simpl in H1, H2.
    assert (I1 : index lc1 k = Ok x).
    { unfold index. specialize (E1 0%nat). rewrite Nat.add_0_r in E1. now rewrite E1. }
    assert (I2 : index lc2 k = Ok y).
    { unfold index. specialize (E2 0%nat). rewrite Nat.add_0_r in E2. now rewrite E2. }
    assert (E1' : forall i, nth_error lc1 (S k + i) = nth_error l1 i).
    { intros i. specialize (E1 (S i)). now rewrite Nat.add_succ_r in E1. }
    assert (E2' : forall i, nth_error lc2 (S k + i) = nth_error l2 i).
    { intros i. specialize (E2 (S i)). now rewrite Nat.add_succ_r in E2. }
    cbn [length seq combine for_each].
    unfold partition_step at 1. rewrite I1, I2.
    destruct v as [[[|]|] p]; cbn [fst snd rbind];
      rewrite (IH (S k) l1 l2) by (trivial; lia);
      unfold bucket, rows; cbn; now rewrite <- ?app_assoc.
Qed.

Lemma partition_run (lc1 lc2 : list (list string)) (tr : list verdict) :
  (length tr <= length lc1)%nat ->
  (length tr <= length lc2)%nat ->
  partition lc1 lc2 tr =
    Ok (bucket is_rejected (rows lc1 lc2 tr),
        bucket is_accepted (rows lc1 lc2 tr),
        bucket is_untested (rows lc1 lc2 tr)).
Proof.
  intros H1 H2. unfold partition, enumerate.
  now rewrite (partition_loop lc1 lc2 tr 0 lc1 lc2 [] [] []).
Qed.

Lemma buckets_permutation (rs : list (list string * list string * verdict)) :
  Permutation (bucket is_rejected rs ++ bucket is_accepted rs ++ bucket is_untested rs)%list
              (map entry_of rs).
Proof.
  unfold bucket. induction rs as [|[[a b] v] rs IH]; simpl; [constructor|].
  destruct (verdict_exactly_one v) as [(-> & -> & ->) | [(-> & -> & ->) | (-> & -> & ->)]]; simpl.
  - now constructor.
  - etransitivity; [symmetry; apply Permutation_middle|]. now constructor.
  - rewrite app_assoc.
    etransitivity; [symmetry; apply Permutation_middle|].
    rewrite <- app_assoc. now constructor.
Qed.

Lemma rows_length (lc1 lc2 : list (list string)) (tr : list verdict) :
  (length tr <= length lc1)%nat -> (length tr <= length lc2)%nat ->
  length (rows lc1 lc2 tr) = length tr.
Proof. intros H1 H2. unfold rows. rewrite !length_combine. lia. Qed.

(** C3: for two row sequences and a verdict sequence of one length, every
    verdict is exactly one of Rejected, Accepted and Untested; the partition
    returns three buckets, each the rows of its verdict in their original
    order; together the buckets hold every row once, and their sizes add up to
    the number of rows. *)
Theorem C3_partition_is_exact_and_stable
    (line_content1 line_content2 : list (list string)) (test_result : list verdict) :
  length line_content1 = length test_result ->
  length line_content2 = length test_result ->
  exists rejected_h0 non_rejected_h0 not_tested,
    partition line_content1 line_content2 test_result
      = Ok (rejected_h0, non_rejected_h0, not_tested)
    /\ (forall v, In v test_result ->
          (is_rejected v = true /\ is_accepted v = false /\ is_untested v = false)
          \/ (is_rejected v = false /\ is_accepted v = true /\ is_untested v = false)
          \/ (is_rejected v = false /\ is_accepted v = false /\ is_untested v = true))
    /\ rejected_h0 = bucket is_rejected (rows line_content1 line_content2 test_result)
    /\ non_rejected_h0 = bucket is_accepted (rows line_content1 line_content2 test_result)
    /\ not_tested = bucket is_untested (rows line_content1 line_content2 test_result)
    /\ Permutation (rejected_h0 ++ non_rejected_h0 ++ not_tested)%list
                   (map entry_of (rows line_content1 line_content2 test_result))
    /\ (length rejected_h0 + length non_rejected_h0 + length not_tested)%nat
       = length test_result.
Proof.
  intros H1 H2. do 3 eexists.
  split; [apply partition_run; lia|].
  split; [intros v _; apply verdict_exactly_one|].
  do 3 (split; [reflexivity|]).
  split; [apply buckets_permutation|].
  pose proof (Permutation_length (buckets_permutation
                (rows line_content1 line_content2 test_result))) as HL.
  rewrite !length_app, length_map, rows_length in HL by lia. lia.
Qed.

(** C3 on three rows with the verdicts Accepted, Untested, Rejected. *)
Lemma C3_partition_witness :
  exists rejected_h0 non_rejected_h0 not_tested,
    partition [["a1"]; ["a2"]; ["a3"]] [["b1"]; ["b2"]; ["b3"]]
              [Accepted 0.5%float; Untested; Rejected 0.01%float]
      = Ok (rejected_h0, non_rejected_h0, not_tested)
    /\ (length rejected_h0 + length non_rejected_h0 + length not_tested)%nat = 3%nat.
Proof.
  destruct (C3_partition_is_exact_and_stable
              [["a1"]; ["a2"]; ["a3"]] [["b1"]; ["b2"]; ["b3"]]
              [Accepted 0.5%float; Untested; Rejected 0.01%float]
              eq_refl eq_refl)
    as (r & a & n & Hp & _ & _ & _ & _ & _ & Hl).
  exists r, a, n. split; [exact Hp | exact Hl].
Defined.

(* ===================================================================== *)
(** ** The reader *)

Lemma read_line_blank (R : Runtime) (st : reader_state) (line : string) :
  is_blank line = true -> read_line R st line = Ok st.
Proof.
  unfold is_blank, fields, read_line. destruct st as [lc data]. now intros ->.
Qed.

Lemma read_line_bad (R : Runtime) (st : reader_state) (line : string) :
  is_blank line = false ->
  numeric_at R (fields line) 9 = false \/ numeric_at R (fields line) 12 = false ->
  exists e, read_line R st line = Raise e /\ (e = IndexError \/ e = ValueError).
Proof.
  unfold is_blank, fields, read_line, numeric_at, index, to_float,
    data_selector_viewpoint, data_selector_target.
  destruct st as [lc data]. intros -> H.
  destruct (nth_error (split tab (strip line)) 9) as [f1|]; cbn [rbind];
    [|eexists; split; [reflexivity | auto]].
  destruct (float_of_str R f1); cbn [rbind];
    [|eexists; split; [reflexivity | auto]].
  destruct (nth_error (split tab (strip line)) 12) as [f2|]; cbn [rbind];
    [|eexists; split; [reflexivity | auto]].
  destruct (float_of_str R f2); cbn [rbind];
    [|eexists; split; [reflexivity | auto]].
  destruct H; discriminate.
Qed.


Lemma read_line_raises (R : Runtime) (st : reader_state) (line : string) (e : exn) :
  read_line R st line = Raise e -> e = IndexError \/ e = ValueError.
Proof.
  unfold read_line, index, to_float, data_selector_viewpoint, data_selector_target.
  destruct st as [lc data].
  destruct (length (split tab (strip line)) <=? 1)%nat; [discriminate|].
  destruct (nth_error (split tab (strip line)) 9) as [f1|]; cbn [rbind];
    [|intros [= <-]; auto].
  destruct (float_of_str R f1); cbn [rbind]; [|intros [= <-]; auto].
  destruct (nth_error (split tab (strip line)) 12) as [f2|]; cbn [rbind];
    [|intros [= <-]; auto].
  destruct (float_of_str R f2); cbn [rbind]; [discriminate | intros [= <-]; auto].
Qed.

(** One bad line anywhere makes the loop over the lines raise. *)
Lemma read_lines_bad (R : Runtime) (line : string) :
  is_blank line = false ->
  numeric_at R (fields line) 9 = false \/ numeric_at R (fields line) 12 = false ->
  forall (ls : list string) (st : reader_state),
  In line ls ->
  exists e, for_each (read_line R) ls st = Raise e /\ (e = IndexError \/ e = ValueError).
Proof.
  intros Hb Hbad. induction ls as [|a ls IH]; intros st Hin; [contradiction|].
  cbn [for_each]. destruct (read_line R st a) as [st'|e] eqn:E; cbn [rbind].
  - destruct Hin as [-> | Hin]; [|now apply IH].
    destruct (read_line_bad R st line Hb Hbad) as (e & He & _). congruence.
  - exists e. split; [reflexivity|]. eapply read_line_raises; eauto.
Qed.

(** Blank lines leave the state of the loop as it is. *)
Lemma read_lines_all_blank (R : Runtime) (ls : list string) (st : reader_state) :
  forallb is_blank ls = true -> for_each (read_line R) ls st = Ok st.
Proof.
  induction ls as [|a ls IH]; intros H; cbn [for_each]; trivial.
  simpl in H. apply andb_true_iff in H. destruct H as [Ha Hls].
  rewrite (read_line_blank _ _ _ Ha). cbn [rbind]. now apply IH.
Qed.

(** The two lists the reader builds have one length. *)
Lemma read_lines_lengths (R : Runtime) (ls : list string) :
  forall lc data lc' data',
  length lc = length data ->
  for_each (read_line R) ls (lc, data) = Ok (lc', data') ->
  length lc' = length data'.
Proof.
  induction ls as [|a ls IH]; intros lc data lc' data' HL; cbn [for_each].
  - now intros [= <- <-].
  - destruct (read_line R (lc, data) a) as [[lc1 data1]|e] eqn:E; cbn [rbind];
      [|discriminate].
    apply IH. revert E.
    unfold read_line, index, to_float, data_selector_viewpoint, data_selector_target.
    destruct (length (split tab (strip a)) <=? 1)%nat; [now intros [= <- <-]|].
    destruct (nth_error (split tab (strip a)) 9) as [f1|]; cbn [rbind]; [|discriminate].
    destruct (float_of_str R f1); cbn [rbind]; [|discriminate].
    destruct (nth_error (split tab (strip a)) 12) as [f2|]; cbn [rbind]; [|discriminate].
    destruct (float_of_str R f2); cbn [rbind]; [|discriminate].
    intros [= <- <-]. rewrite !length_app. simpl. lia.
Qed.

Lemma read_interaction_text_lengths (R : Runtime) (text header : string)
    (lc : list (list string)) (data : list (list float)) :
  read_interaction_text R text = Ok (header, lc, data) -> length lc = length data.
Proof.
  unfold read_interaction_text. destruct (readline text) as [h rest].
  destruct (for_each (read_line R) (readlines rest) ([], [])) as [[lc' data']|e] eqn:E;
    cbn [rbind]; [|discriminate].
  intros [= _ <- <-]. eapply read_lines_lengths; [|exact E]. reflexivity.
Qed.

Lemma read_interaction_text_no_rows (R : Runtime) (text : string) :
  forallb is_blank (data_lines text) = true ->
  read_interaction_text R text = Ok (fst (readline text), [], []).
Proof.
  unfold data_lines, read_interaction_text. destruct (readline text) as [h rest].
  cbn [fst snd]. intros H. now rewrite (read_lines_all_blank R _ _ H).
Qed.

(** C8: the reader skips a line with at most one field after the strip and
    the split on tab (the state of its loop is unchanged, and a file read with
    or without the line gives the same result), and a line with more fields
    whose field 9 or field 12 is missing or is not a float makes the whole
    read raise [IndexError] or [ValueError]: nothing is returned and the
    exception reaches the caller of [readInteractionFile]. *)
Theorem C8_reader_skips_blank_fails_on_bad
    (R : Runtime) (line : string) :
  (is_blank line = true ->
     (forall st, read_line R st line = Ok st)
     /\ (forall before after st,
           for_each (read_line R) (before ++ line :: after)%list st
           = for_each (read_line R) (before ++ after)%list st))
  /\
  (is_blank line = false ->
   numeric_at R (fields line) 9 = false \/ numeric_at R (fields line) 12 = false ->
   forall text, In line (data_lines text) ->
   exists e,
     (e = IndexError \/ e = ValueError)
     /\ read_interaction_text R text = Raise e
     /\ forall path w, files w path = Some text ->
          readInteractionFile R path w = (Raise e, w)).
Proof.
  split.
  - intros Hb. split; [intros st; now apply read_line_blank|].
    intros before after st. rewrite !for_each_app.
    destruct (for_each (read_line R) before st) as [st'|e]; cbn [rbind for_each]; trivial.
    now rewrite (read_line_blank _ _ _ Hb).
  - intros Hb Hbad text Hin. unfold data_lines in Hin.
    assert (Ht : exists e, (e = IndexError \/ e = ValueError)
                           /\ read_interaction_text R text = Raise e).
    { unfold read_interaction_text. destruct (readline text) as [h rest]. cbn [snd] in Hin.
      destruct (read_lines_bad R line Hb Hbad _ ([], []) Hin) as (e & -> & He).
      now exists e. }
    destruct Ht as (e & He & Ht). exists e. split; [exact He|]. split; [exact Ht|].
    intros path w Hf. unfold readInteractionFile, bind, read_file, lift.
    now rewrite Hf, Ht.
Qed.

(** C8 on the sample runtime: an empty line is skipped, and a file whose
    second line has two fields only cannot be read. *)
Lemma C8_reader_witness :
  read_line sample_runtime ([], []) NL = Ok ([], [])
  /\ exists e,
       (e = IndexError \/ e = ValueError)
       /\ read_interaction_text sample_runtime
            ("header" ++ NL ++ "a" ++ TAB ++ "b" ++ NL) = Raise e.
Proof.
  split.
  - apply (proj1 (C8_reader_skips_blank_fails_on_bad sample_runtime NL)).
    vm_compute. reflexivity.
  - destruct (proj2 (C8_reader_skips_blank_fails_on_bad sample_runtime
                       ("a" ++ TAB ++ "b" ++ NL))
                ltac:(vm_compute; reflexivity)
                ltac:(left; vm_compute; reflexivity)
                ("header" ++ NL ++ "a" ++ TAB ++ "b" ++ NL)
                ltac:(vm_compute; auto))
      as (e & He & Ht & _).
    exists e. split; [exact He | exact Ht].
Defined.

(* ===================================================================== *)
(** ** main *)

Lemma chisquare_test_no_rows (R : Runtime) (d1 d2 : list (list float)) (pAlpha : float)
    (w : world) :
  combine d1 d2 = [] -> chisquare_test R d1 d2 pAlpha w = (Ok [], w).
Proof. intros H. unfold chisquare_test, bind, lift. now rewrite H. Qed.

Lemma fisher_exact_test_no_rows (R : Runtime) (d1 d2 : list (list float)) (pAlpha : float) :
  combine d1 d2 = [] -> fisher_exact_test R d1 d2 pAlpha = Ok [].
Proof. intros H. unfold fisher_exact_test. now rewrite H. Qed.

(** [main] when both files are read and one of them has no row. *)
Lemma main_no_rows (R : Runtime) (args : arguments) (w : world) (text1 text2 : string)
    (header1 header2 : string) (lc1 lc2 : list (list string)) (data1 data2 : list (list float)) :
  files w (fst (interactionFile args)) = Some text1 ->
  files w (snd (interactionFile args)) = Some text2 ->
  read_interaction_text R text1 = Ok (header1, lc1, data1) ->
  read_interaction_text R text2 = Ok (header2, lc2, data2) ->
  lc1 = [] \/ lc2 = [] ->
  main R args w = (Raise IndexError, w).
Proof.
  intros F1 F2 T1 T2 Hempty.
  pose proof (read_interaction_text_lengths _ _ _ _ _ T1) as L1.
  pose proof (read_interaction_text_lengths _ _ _ _ _ T2) as L2.
  assert (Hc : combine data1 data2 = []).
  { destruct Hempty as [-> | ->].
    - destruct data1; [reflexivity | discriminate].
    - destruct data2; [apply combine_nil | discriminate]. }
  assert (Hrun : run_statistic_test R (statisticTest args) data1 data2 (alpha args) w
                 = (Ok [], w)).
  { unfold run_statistic_test. destruct (statisticTest args).
    - unfold lift. now rewrite fisher_exact_test_no_rows.
    - now apply chisquare_test_no_rows. }
  unfold main, readInteractionFile, bind at 1 2, read_file, lift at 1. rewrite F1, T1.
  unfold bind at 1 2, lift at 1. rewrite F2, T2.
  unfold bind at 1. rewrite Hrun.
  unfold bind at 1, lift at 1, partition. cbn [enumerate length seq combine for_each].
  unfold bind at 1, lift at 1.
  destruct (output_paths_total (outFileName args)) as (p1 & p2 & p3 & ->).
  unfold write_bucket, bind, lift.
  destruct Hempty as [-> | ->]; [reflexivity|].
  destruct lc1; reflexivity.
Qed.

(** C9: when both files can be read and one of them holds its header line
    and no data row (every later line is blank), [main] ends with
    [IndexError], raised where row 0 is taken for the region labels of the
    first [writeResult] call; the reads and the test succeed before that, and
    the world is left as it was: no file is written and nothing is logged. *)
Theorem C9_no_data_rows_index_error
    (R : Runtime) (args : arguments) (w : world) (text1 text2 : string) :
  files w (fst (interactionFile args)) = Some text1 ->
  files w (snd (interactionFile args)) = Some text2 ->
  (forallb is_blank (data_lines text1) = true
   /\ exists r2, read_interaction_text R text2 = Ok r2)
  \/ ((exists r1, read_interaction_text R text1 = Ok r1)
      /\ forallb is_blank (data_lines text2) = true) ->
  (forallb is_blank (data_lines text1) = true ->
   readInteractionFile R (fst (interactionFile args)) w
     = (Ok (fst (readline text1), [], []), w))
  /\ (forallb is_blank (data_lines text2) = true ->
      readInteractionFile R (snd (interactionFile args)) w
        = (Ok (fst (readline text2), [], []), w))
  /\ (forall d pAlpha w0,
        chisquare_test R [] d pAlpha w0 = (Ok [], w0)
        /\ chisquare_test R d [] pAlpha w0 = (Ok [], w0)
        /\ fisher_exact_test R [] d pAlpha = Ok []
        /\ fisher_exact_test R d [] pAlpha = Ok [])
  /\ main R args w = (Raise IndexError, w).
Proof.
  intros F1 F2 H.
  split; [|split; [|split]].
  - intros Hb. unfold readInteractionFile, bind, read_file, lift.
    now rewrite F1, (read_interaction_text_no_rows R _ Hb).
  - intros Hb. unfold readInteractionFile, bind, read_file, lift.
    now rewrite F2, (read_interaction_text_no_rows R _ Hb).
  - intros d pAlpha w0. split; [|split; [|split]].
    + now apply chisquare_test_no_rows.
    + apply chisquare_test_no_rows, combine_nil.
    + now apply fisher_exact_test_no_rows.
    + apply fisher_exact_test_no_rows, combine_nil.
  - destruct H as [[Hb [[[h2 lc2] data2] T2]] | [[[[h1 lc1] data1] T1] Hb]].
    + eapply main_no_rows; eauto using read_interaction_text_no_rows.
    + eapply main_no_rows; eauto using read_interaction_text_no_rows.
Qed.

(* ===================================================================== *)
(** ** The p-value line *)




(* ===================================================================== *)
(** ** The writer *)

Lemma write_data_block (file : string) (d : triple) :
  write_data file d = file ++ block d.
Proof.
  destruct d as [[a b] [p|]]; unfold write_data, block;
    now rewrite ?append_assoc, ?append_nil_r.
Qed.

Lemma write_loop_blocks (pData : list triple) (file : string) :
  fold_left write_data pData file = file ++ blocks pData.
Proof.
  revert file. induction pData as [|d pData IH]; intros file; simpl.
  - now rewrite append_nil_r.
  - now rewrite IH, write_data_block, append_assoc.
Qed.

Lemma result_text_layout (R : Runtime) (pData : list triple) (pRejected : option bool)
    (pHeaderOld pHeaderNew : string) (pViewpoint1 pViewpoint2 : list string)
    (pAlpha : float) (pTest : string) :
  result_text R pData pRejected pHeaderOld pHeaderNew pViewpoint1 pViewpoint2 pAlpha pTest
  = result_header R pRejected pViewpoint1 pViewpoint2 pAlpha pTest
    ++ pHeaderOld ++ blocks pData.
Proof.
  unfold result_text. rewrite write_loop_blocks. cbn [append].
  now rewrite append_assoc.
Qed.







(** The verdicts of the two tests are well formed. *)
Lemma chi2_verdict_well_formed (R : Runtime) (cv : float) (t : table) :
  well_formed (chi2_verdict R cv t) = true.
Proof.
  unfold chi2_verdict. destruct (chi2_contingency R t) as [[x p]|e]; trivial.
  now destruct (float_ge x cv).
Qed.

Lemma fisher_verdict_well_formed (R : Runtime) (pAlpha : float) (t : table) :
  well_formed (fisher_verdict R pAlpha t) = true.
Proof.
  unfold fisher_verdict. destruct (fisher_exact R t) as [[x p]|e]; trivial.
  now destruct (float_le p pAlpha).
Qed.

(** *** The rows of the reader print as one line each *)







(** *** The verdicts a test returns *)





(** C10: the text [writeResult] writes is the same for any two values of
    [pHeaderNew]; after the generated header it holds [pHeaderOld], then the
    blocks, and the file written is that text at [pOutFileName]. *)
Theorem C10_pHeaderNew_is_not_written
    (R : Runtime) (pOutFileName : string) (pData : list triple) (pRejected : option bool)
    (pHeaderOld pHeaderNew pHeaderNew' : string) (pViewpoint1 pViewpoint2 : list string)
    (pAlpha : float) (pTest : string) (w : world) :
  writeResult R pOutFileName pData pRejected pHeaderOld pHeaderNew
              pViewpoint1 pViewpoint2 pAlpha pTest w
  = writeResult R pOutFileName pData pRejected pHeaderOld pHeaderNew'
                pViewpoint1 pViewpoint2 pAlpha pTest w
  /\ writeResult R pOutFileName pData pRejected pHeaderOld pHeaderNew
                 pViewpoint1 pViewpoint2 pAlpha pTest w
     = (Ok tt,
        {| files := files w;
           written := (written w ++
                       [(pOutFileName,
                         (result_header R pRejected pViewpoint1 pViewpoint2 pAlpha pTest
                          ++ pHeaderOld ++ blocks pData)%string)])%list;
           logged := logged w |}).
Proof.
  split; [reflexivity|].
  unfold writeResult, write_file. now rewrite result_text_layout.
Qed.

(* ===================================================================== *)
(** ** Integers in binary64 *)

Lemma iter_xO_digits (p d : positive) :
  digits2_pos (Pos.iter xO p d) = (digits2_pos p + d)%positive.
Proof.
  apply (Pos.iter_ind _ xO p (fun d q => digits2_pos q = (digits2_pos p + d)%positive)).
  - simpl. now rewrite Pos.add_1_r.
  - intros d' q IH. simpl. now rewrite IH, Pos.add_succ_r.
Qed.

Lemma iter_xO_value (p d : positive) :
  Zpos (Pos.iter xO p d) = (Zpos p * 2 ^ Zpos d)%Z.
Proof.
  apply (Pos.iter_ind _ xO p (fun d q => Zpos q = (Zpos p * 2 ^ Zpos d)%Z)).
  - lia.
  - intros d' q IH. rewrite Pos2Z.inj_xO, IH, Pos2Z.inj_succ, Z.pow_succ_r by lia. lia.
Qed.

Lemma digits2_pos_bounds (p : positive) :
  (2 ^ (Zpos (digits2_pos p) - 1) <= Zpos p < 2 ^ Zpos (digits2_pos p))%Z.
Proof.
  induction p as [p IH|p IH|]; cbn [digits2_pos]; [| |simpl; lia];
    rewrite Pos2Z.inj_succ;
    replace (Z.succ (Zpos (digits2_pos p)) - 1)%Z
      with (Z.succ (Zpos (digits2_pos p) - 1))%Z by lia;
    rewrite !Z.pow_succ_r by lia; lia.
Qed.

Lemma digits2_pos_le_53 (p : positive) :
  (Zpos p < 2 ^ 53)%Z -> (Zpos (digits2_pos p) <= 53)%Z.
Proof.
  intros Hp. pose proof (digits2_pos_bounds p) as Hb.
  destruct (Z.le_gt_cases (Zpos (digits2_pos p)) 53) as [H|H]; trivial.
  assert (2 ^ 53 <= 2 ^ (Zpos (digits2_pos p) - 1))%Z by (apply Z.pow_le_mono_r; lia).
  lia.
Qed.

(** A mantissa of 53 bits is not shifted and not rounded. *)
Lemma shr_fexp_canonical (m : positive) (e : Z) :
  Zpos (digits2_pos m) = 53%Z -> (-1074 <= e)%Z ->
  shr_fexp prec emax (Zpos m) e loc_Exact
  = ({| shr_m := Zpos m; shr_r := false; shr_s := false |}, e).
Proof.
  intros Hd He. unfold shr_fexp, fexp, emin, prec, emax, Zdigits2. rewrite Hd.
  replace (Z.max (53 + e - 53) (3 - 1024 - 53) - e)%Z with 0%Z by lia.
  reflexivity.
Qed.

Lemma binary_round_canonical (s : bool) (m : positive) (e : Z) :
  Zpos (digits2_pos m) = 53%Z -> (-1074 <= e <= 971)%Z ->
  binary_round_aux prec emax s (Zpos m) e loc_Exact = S754_finite s m e.
Proof.
  intros Hd He. unfold binary_round_aux.
  rewrite shr_fexp_canonical by (trivial; lia).
  cbn [shr_m loc_of_shr_record round_nearest_even].
  rewrite shr_fexp_canonical by (trivial; lia). cbn [shr_m].
  unfold emax, prec. destruct (Z.leb_spec e (1024 - 53)); [reflexivity | lia].
Qed.

(** An integer below [2 ^ 53] is a binary64 value: its mantissa is shifted
    left to 53 bits and nothing is lost. *)
Lemma binary_round_integer (s : bool) (p : positive) :
  (Zpos p < 2 ^ 53)%Z ->
  exists (m : positive) (k : Z),
    binary_round prec emax s p 0 = S754_finite s m (- k)
    /\ (0 <= k)%Z /\ Zpos m = (Zpos p * 2 ^ k)%Z.
Proof.
  intros Hp. pose proof (digits2_pos_le_53 p Hp) as Hd.
  unfold binary_round, shl_align, fexp, emin.
  change prec with 53%Z. change emax with 1024%Z.
  replace (Z.max (Zpos (digits2_pos p) + 0 - 53) (3 - 1024 - 53) - 0)%Z
    with (Zpos (digits2_pos p) - 53)%Z by lia.
  replace (Z.max (Zpos (digits2_pos p) + 0 - 53) (3 - 1024 - 53))%Z
    with (Zpos (digits2_pos p) - 53)%Z by lia.
  destruct (Zpos (digits2_pos p) - 53)%Z as [|d|d] eqn:E; [|lia|].
  - exists p, 0%Z. split; [|split; [lia|]].
    + apply binary_round_canonical; lia.
    + rewrite Z.pow_0_r. lia.
  - exists (Pos.iter xO p d), (Zpos d). split; [|split; [lia | apply iter_xO_value]].
    rewrite binary_round_canonical.
    + f_equal.
    + rewrite iter_xO_digits. lia.
    + lia.
Qed.

Lemma float_of_Z_exact (n : Z) :
  n <> 0%Z -> (Z.abs n < 2 ^ 53)%Z ->
  integer_value (Prim2SF (float_of_Z n)) n.
Proof.
  intros Hn Hb. unfold float_of_Z.
  assert (HwB : (2 ^ 53 < wB)%Z) by (vm_compute; reflexivity).
  destruct n as [|p|p]; [congruence| |].
  - cbn [Z.ltb Z.compare]. rewrite of_uint63_spec, of_Z_spec.
    rewrite Z.mod_small by (simpl in Hb; lia). cbn [binary_normalize].
    destruct (binary_round_integer false p Hb) as (m & k & -> & Hk & Hm).
    unfold integer_value, signed.
    destruct (0 <=? - k)%Z eqn:E.
    + apply Z.leb_le in E. assert (k = 0%Z) by lia. subst k.
      rewrite Z.pow_0_r in *. simpl. lia.
    + rewrite Z.opp_involutive. exact Hm.
  - cbn [Z.ltb Z.compare Z.opp]. rewrite FloatAxioms.opp_spec, of_uint63_spec, of_Z_spec.
    rewrite Z.mod_small by (simpl in Hb; lia). cbn [binary_normalize].
    destruct (binary_round_integer false p Hb) as (m & k & -> & Hk & Hm).
    unfold integer_value, signed. cbn [SFopp negb].
    destruct (0 <=? - k)%Z eqn:E.
    + apply Z.leb_le in E. assert (k = 0%Z) by lia. subst k.
      rewrite Z.pow_0_r in *. simpl. lia.
    + rewrite Z.opp_involutive. lia.
Qed.

Lemma valid_mantissa_bound (s : bool) (m : positive) (e : Z) :
  valid_binary (S754_finite s m e) = true -> (Zpos m < 2 ^ 53)%Z.
Proof.
  unfold FloatAxioms.valid_binary. cbn [SpecFloat.valid_binary].
  unfold bounded, canonical_mantissa, fexp, emin.
  change prec with 53%Z. change emax with 1024%Z.
  intros H. apply andb_true_iff in H. destruct H as [H _]. apply Z.eqb_eq in H.
  pose proof (digits2_pos_bounds m) as Hb.
  assert (2 ^ Zpos (digits2_pos m) <= 2 ^ 53)%Z by (apply Z.pow_le_mono_r; lia).
  lia.
Qed.

(* ===================================================================== *)
(** ** The rounding of the Fisher strategy *)

(** [ceilZ a e] is the least integer not below [a * 2 ^ e]. *)
Lemma ceilZ_least (a e : Z) : least_integer_not_below (ceilZ a e) a e.
Proof.
  unfold least_integer_not_below, ceilZ.
  destruct (0 <=? e)%Z eqn:E; [reflexivity|]. apply Z.leb_gt in E.
  assert (Hd : (0 < 2 ^ (- e))%Z) by (apply Z.pow_pos_nonneg; lia).
  pose proof (Z.div_mod (- a) (2 ^ (- e)) ltac:(lia)) as Hdm.
  pose proof (Z.mod_pos_bound (- a) (2 ^ (- e)) Hd) as Hb.
  nia.
Qed.

Lemma ceilZ_bound (a e : Z) :
  (e < 0)%Z -> (Z.abs a < 2 ^ 53)%Z -> (Z.abs (ceilZ a e) < 2 ^ 53)%Z.
Proof.
  intros He Ha. pose proof (ceilZ_least a e) as H.
  unfold least_integer_not_below in H.
  destruct (0 <=? e)%Z eqn:E; [apply Z.leb_le in E; lia|].
  assert (Hd : (2 <= 2 ^ (- e))%Z).
  { change 2%Z with (2 ^ 1)%Z at 1. apply Z.pow_le_mono_r; lia. }
  assert (H53 : (2 ^ 53 = 9007199254740992)%Z) by reflexivity.
  rewrite H53 in *. nia.
Qed.

(** The value of [np.ceil(x)] for a finite [x] is the least integer not below
    the value of [x]. *)
Lemma np_ceil_exact (x : float) (s : bool) (m : positive) (e : Z) :
  Prim2SF x = S754_finite s m e ->
  integer_value (Prim2SF (np_ceil x)) (ceilZ (signed s m) e).
Proof.
  intros Hx. unfold np_ceil. rewrite Hx.
  destruct (0 <=? e)%Z eqn:E.
  - rewrite Hx. unfold integer_value, ceilZ. now rewrite E.
  - apply Z.leb_gt in E.
    destruct (ceilZ (signed s m) e =? 0)%Z eqn:Z0.
    + apply Z.eqb_eq in Z0. rewrite Z0. now destruct s.
    + apply Z.eqb_neq in Z0. apply float_of_Z_exact; [exact Z0|].
      apply ceilZ_bound; [exact E|].
      pose proof (Prim2SF_valid x) as Hv. rewrite Hx in Hv.
      apply valid_mantissa_bound in Hv. destruct s; simpl; lia.
Qed.

(** C5: the Fisher strategy runs the exact test on the table of the four
    cells each passed through [np.ceil], and its verdict is decided by that
    call alone. [np.ceil] rounds up, never down and never to nearest: for a
    finite cell of value [mant * 2 ^ e], the value of the rounded cell is the
    integer [n] that is the least one not below [mant * 2 ^ e] ([n] itself is
    not below the cell and [n - 1] is); a cell that is a zero, an infinity or a
    NaN is passed as it is. The pairs (1.2, 1.2) and (10.8, 1.1) give the
    table [[2, 2], [11, 2]]. *)
Theorem C5_fisher_cells_rounded_up
    (R : Runtime) (pAlpha : float) (test_result : list verdict) (a b c d : float) :
  fisher_row R pAlpha test_result ([a; b], [c; d]) =
    match fisher_exact R [[np_ceil a; np_ceil b]; [np_ceil c; np_ceil d]] with
    | Ok (_, p_value) =>
        Ok (test_result ++
            [if float_le p_value pAlpha then Rejected p_value else Accepted p_value])%list
    | Raise ValueError => Ok (test_result ++ [Untested])%list
    | Raise e => Raise e
    end
  /\ (forall x s m e, Prim2SF x = S754_finite s m e ->
        integer_value (Prim2SF (np_ceil x)) (ceilZ (signed s m) e)
        /\ least_integer_not_below (ceilZ (signed s m) e) (signed s m) e)
  /\ (forall x, is_number x = false \/ PrimFloat.is_zero x = true -> np_ceil x = x)
  /\ np_ceil_table [[1.2; 1.2]; [10.8; 1.1]]%float = [[2; 2]; [11; 2]]%float.
Proof.
  split; [|split; [|split]].
  - unfold fisher_row. cbn [np_ceil_table map].
    destruct (fisher_exact R [[np_ceil a; np_ceil b]; [np_ceil c; np_ceil d]])
      as [[odds p]|e]; [|reflexivity].
    now destruct (float_le p pAlpha).
  - intros x s m e Hx. split; [now apply np_ceil_exact | apply ceilZ_least].
  - intros x H. unfold np_ceil, is_number in *.
    destruct (Prim2SF x) as [s|s| |s m e] eqn:Hx; trivial.
    destruct H as [H|H]; [discriminate|].
    unfold PrimFloat.is_zero in H. rewrite FloatAxioms.eqb_spec, Hx in H.
    change (Prim2SF 0) with (S754_zero false) in H.
    unfold SFeqb in H. cbn [SFcompare] in H. destruct s; discriminate.
  - vm_compute. reflexivity.
Qed.

(** C5 at the cell 10.8: it is [6079859496950170 * 2 ^ (-49)], and the value
    of the rounded cell is 11, with [10 * 2 ^ 49] below the mantissa and
    [11 * 2 ^ 49] not. *)
Lemma C5_fisher_cells_witness :
  integer_value (Prim2SF (np_ceil 10.8%float)) 11
  /\ least_integer_not_below 11 6079859496950170 (-49).
Proof.
  exact (proj1 (proj2 (C5_fisher_cells_rounded_up sample_runtime 0.05%float []
                         1.2%float 1.2%float 10.8%float 1.1%float))
               10.8%float false 6079859496950170%positive (-49)%Z
               ltac:(vm_compute; reflexivity)).
Defined.


(** C9 on the sample files: the first file holds its header only. *)
Lemma C9_no_data_rows_witness :
  main sample_runtime sample_arguments sample_world = (Raise IndexError, sample_world).
Proof.
  refine (proj2 (proj2 (proj2
    (C9_no_data_rows_index_error sample_runtime sample_arguments sample_world
       ("#header a" ++ NL)
       ("#header b" ++ NL ++ sample_row "r1" "2" "0" ++ NL ++ sample_row "r2" "0" "2")
       eq_refl eq_refl _)))).
  left. split; [vm_compute; reflexivity|].
  eexists. vm_compute. reflexivity.
Defined.

(* ===================================================================== *)
(** ** The models of the builtins on concrete values *)

(** [str.split] keeps empty segments and never returns the empty list. *)
Example split_examples :
  split dot "run.v2.bed" = ["run"; "v2"; "bed"]
  /\ split dot "" = [""]
  /\ split dot ".a." = [""; "a"; ""].
Proof. repeat split. Qed.

(** [str.strip] removes the line terminator and the blanks around a line. *)
Example strip_example : strip ("  a b " ++ NL) = "a b".
Proof. reflexivity. Qed.

(** A path with a directory that starts with a dot loses everything. *)
Example output_paths_dot_directory :
  output_paths "./results/out.bed"
  = Ok ("_rejected_H0.bed", "_accepted_H0.bed", "_no_test.bed").
Proof. reflexivity. Qed.

(** [np.ceil] on negative values, integers and large values. *)
Example np_ceil_examples :
  map np_ceil [-0.5; -1.5; 3; 0; 1e300; 0.999999; -7.2]%float
  = [-0; -1; 3; 0; 1e300; 1; -7]%float.
Proof. vm_compute. reflexivity. Qed.

(** [format(_, '.5f')] rounds the exact binary value, ties to even:
    0.015625 and 0.046875 are exact ties. *)
Example format_5f_examples :
  map format_5f [0.05; 0.015625; 0.046875; 1; 123.4567891; -0.000001; 0.000005;
                 1e22; 0.999995; 0.999996; 2.5; nan; infinity; neg_infinity]%float
  = ["0.05000"; "0.01562"; "0.04688"; "1.00000"; "123.45679"; "-0.00000"; "0.00001";
     "10000000000000000000000.00000"; "0.99999"; "1.00000"; "2.50000";
     "nan"; "inf"; "-inf"].
Proof. vm_compute. reflexivity. Qed.

(** A whole run with the chi-squared strategy on two files of three rows: row
    [r1] is degenerate, the other two are accepted; three files are written,
    in the order rejected, accepted, not tested, and the skipped row is
    logged. The output name [./out.v2.bed] gives the empty base. *)
Example main_sample_run :
  let '(r, w) :=
    main sample_runtime
      {| interactionFile := ("a.bed", "b.bed"); alpha := 0.2%float;
         outFileName := "./out.v2.bed"; statisticTest := test_chi2 |}
      sample_world_rows in
  r = Ok tt
  /\ map fst (written w) = ["_rejected_H0.bed"; "_accepted_H0.bed"; "_no_test.bed"]
  /\ map (fun f => nonblank_lines (snd f)) (written w) = [10; 16; 12]%nat
  /\ logged w = [skipped_message 1].
Proof. vm_compute. repeat split. Qed.

(* ===================================================================== *)
(** * Further properties of the reader *)

Lemma readline_app (s : string) : fst (readline s) ++ snd (readline s) = s.
Proof.
  induction s as [|c s IH]; simpl; trivial.
  destruct (Ascii.eqb c newline); [reflexivity|].
  destruct (readline s) as [l r]. simpl in *. now rewrite IH.
Qed.

Lemma readlines_unlines (s : string) : unlines (readlines s) = s.
Proof.
  induction s as [|c s IH]; simpl; trivial.
  destruct (Ascii.eqb c newline); [simpl; now rewrite IH|].
  destruct (readlines s) as [|l ls]; simpl in *; now rewrite <- IH.
Qed.

Lemma read_line_numbers (R : Runtime) (lc : list (list string)) (data : list (list float))
    (line : string) :
  is_blank line = false ->
  read_line R (lc, data) line =
    match numbers R (fields line) with
    | Some xs => Ok ((lc ++ [fields line])%list, (data ++ [xs])%list)
    | None =>
        match nth_error (fields line) 9 with
        | None => Raise IndexError
        | Some f1 =>
            match float_of_str R f1 with
            | None => Raise ValueError
            | Some _ =>
                match nth_error (fields line) 12 with
                | None => Raise IndexError
                | Some _ => Raise ValueError
                end
            end
        end
    end.
Proof.
  unfold is_blank, fields, read_line, numbers, index, to_float,
    data_selector_viewpoint, data_selector_target.
  intros ->.
  destruct (nth_error (split tab (strip line)) 9) as [f1|]; cbn [rbind];
    [|reflexivity].
  destruct (float_of_str R f1) as [x1|]; cbn [rbind].
  - destruct (nth_error (split tab (strip line)) 12) as [f2|]; cbn [rbind];
      [|reflexivity].
    destruct (float_of_str R f2) as [x2|]; reflexivity.
  - destruct (nth_error (split tab (strip line)) 12) as [f2|]; reflexivity.
Qed.

Lemma read_lines_good (R : Runtime) (ls : list string) :
  forall lc data,
  forallb (good_line R) ls = true ->
  exists data',
    for_each (read_line R) ls (lc, data)
    = Ok ((lc ++ map fields (filter (fun l => negb (is_blank l)) ls))%list,
          (data ++ data')%list)
    /\ map Some data'
       = map (fun l => numbers R (fields l)) (filter (fun l => negb (is_blank l)) ls).
Proof.
  induction ls as [|a ls IH]; intros lc data H.
  - exists []. simpl. now rewrite !app_nil_r.
  - cbn [forallb] in H. apply andb_true_iff in H. destruct H as [Ha Hls].
    cbn [for_each filter]. unfold good_line in Ha.
    destruct (is_blank a) eqn:Hb; cbn [negb].
    + rewrite (read_line_blank _ _ _ Hb). cbn [rbind]. now apply IH.
    + rewrite (read_line_numbers _ _ _ _ Hb). cbn [orb] in Ha.
      destruct (numbers R (fields a)) as [xs|] eqn:Hn; [|discriminate].
      cbn [rbind]. destruct (IH (lc ++ [fields a])%list (data ++ [xs])%list Hls)
        as (data' & -> & Hd).
      exists (xs :: data'). cbn [map]. rewrite Hn, Hd, <- !app_assoc. now split.
Qed.

Lemma read_lines_ok_good (R : Runtime) (ls : list string) :
  forall st st', for_each (read_line R) ls st = Ok st' -> forallb (good_line R) ls = true.
Proof.
  induction ls as [|a ls IH]; intros [lc data] st'; cbn [for_each forallb]; trivial.
  destruct (read_line R (lc, data) a) as [st1|e] eqn:E; cbn [rbind]; [|discriminate].
  intros Hrun. rewrite (IH _ _ Hrun), andb_true_r. unfold good_line.
  destruct (is_blank a) eqn:Hb; trivial.
  rewrite (read_line_numbers _ _ _ _ Hb) in E.
  destruct (numbers R (fields a)); trivial.
  destruct (nth_error (fields a) 9) as [f1|]; [|discriminate].
  destruct (float_of_str R f1); [|discriminate].
  destruct (nth_error (fields a) 12); discriminate.
Qed.

Lemma read_interaction_text_ok_good (R : Runtime) (text : string)
    (r : string * list (list string) * list (list float)) :
  read_interaction_text R text = Ok r ->
  forallb (good_line R) (data_lines text) = true.
Proof.
  unfold read_interaction_text, data_lines. destruct (readline text) as [h rest].
  cbn [snd].
  destruct (for_each (read_line R) (readlines rest) ([], [])) as [st|e] eqn:E;
    [|discriminate].
  intros _. eapply read_lines_ok_good; eauto.
Qed.

Lemma read_interaction_text_good (R : Runtime) (text : string) :
  forallb (good_line R) (data_lines text) = true ->
  exists data,
    read_interaction_text R text
    = Ok (fst (readline text), map fields (kept_lines text), data)
    /\ map Some data = map (numbers R) (map fields (kept_lines text)).
Proof.
  unfold read_interaction_text, data_lines, kept_lines, data_lines.
  destruct (readline text) as [h rest]. cbn [fst snd]. intros H.
  destruct (read_lines_good R _ [] [] H) as (data & -> & Hd).
  exists data. cbn [rbind app]. split; [reflexivity|]. now rewrite map_map.
Qed.

(** What a successful read returns. *)
Lemma read_interaction_text_result (R : Runtime) (text header : string)
    (line_content : list (list string)) (data : list (list float)) :
  read_interaction_text R text = Ok (header, line_content, data) ->
  header = fst (readline text)
  /\ line_content = map fields (kept_lines text)
  /\ map Some data = map (numbers R) line_content.
Proof.
  intros Hr.
  destruct (read_interaction_text_good R text (read_interaction_text_ok_good _ _ _ Hr))
    as (data' & Hr' & Hd).
  rewrite Hr in Hr'. injection Hr' as -> -> ->. auto.
Qed.

(** X1: the reader returns exactly when every data line is blank or has a
    float in field 9 and in field 12. What it returns is the first line of the
    file as it is, terminator included, as the header; the fields of the lines
    that are not blank, in their order; and for each of them the pair of the
    two floats. The header and the data lines together are the whole text. *)
Theorem X1_reader_returns_rows_of_good_lines (R : Runtime) (text : string) :
  (forallb (good_line R) (data_lines text) = true <->
   exists r, read_interaction_text R text = Ok r)
  /\ (forall header line_content data,
        read_interaction_text R text = Ok (header, line_content, data) ->
        header = fst (readline text)
        /\ header ++ unlines (data_lines text) = text
        /\ line_content = map fields (kept_lines text)
        /\ map Some data = map (numbers R) line_content).
Proof.
  split.
  - split.
    + intros H. destruct (read_interaction_text_good R text H) as (data & -> & _).
      now eexists.
    + intros [r Hr]. eapply read_interaction_text_ok_good; eauto.
  - intros header lc data Hr.
    destruct (read_interaction_text_result _ _ _ _ _ Hr) as (-> & -> & Hd).
    split; [reflexivity|]. split; [|split; [reflexivity | exact Hd]].
    unfold data_lines. rewrite readlines_unlines. apply readline_app.
Qed.

(** X1 on the second sample file: two rows are returned. *)
Lemma X1_reader_witness :
  exists r,
    read_interaction_text sample_runtime
      ("#header b" ++ NL ++ sample_row "r1" "2" "0" ++ NL ++ sample_row "r2" "0" "2")
    = Ok r.
Proof.
  apply (proj1 (proj1 (X1_reader_returns_rows_of_good_lines sample_runtime
           ("#header b" ++ NL ++ sample_row "r1" "2" "0" ++ NL ++ sample_row "r2" "0" "2")))).
  vm_compute. reflexivity.
Defined.

(** X2: a row that was read is written back as its line was, stripped: the
    fields the reader returns, joined by tabs as [writeResult] joins them, are
    the lines that are not blank with their surrounding whitespace removed, so
    the two record lines of a block are the two stripped input lines. *)
Theorem X2_rows_are_written_back_stripped
    (R : Runtime) (text header : string) (line_content : list (list string))
    (data : list (list float)) :
  read_interaction_text R text = Ok (header, line_content, data) ->
  map (join TAB) line_content = map strip (kept_lines text)
  /\ forall line1 line2 p,
       block (fields line1, fields line2, p)
       = strip line1 ++ NL ++ strip line2 ++ NL
         ++ match p with
            | Some p_value => format_5f p_value ++ NL
            | None => ""
            end
         ++ NL.
Proof.
  intros Hr.
  destruct (read_interaction_text_result _ _ _ _ _ Hr) as (_ & -> & _).
  split.
  - rewrite map_map. apply map_ext. intros line. unfold fields, TAB. apply join_split.
  - intros line1 line2 p. unfold block, fields, TAB. now rewrite !join_split.
Qed.

(** X2 on the second sample file. *)
Lemma X2_rows_witness :
  map (join TAB) [fields (sample_row "r1" "2" "0"); fields (sample_row "r2" "0" "2")]
  = map strip
      (kept_lines ("#header b" ++ NL ++ sample_row "r1" "2" "0" ++ NL
                   ++ sample_row "r2" "0" "2")).
Proof.
  exact (proj1 (X2_rows_are_written_back_stripped sample_runtime
                  ("#header b" ++ NL ++ sample_row "r1" "2" "0" ++ NL
                   ++ sample_row "r2" "0" "2")
                  ("#header b" ++ NL)
                  [fields (sample_row "r1" "2" "0"); fields (sample_row "r2" "0" "2")]
                  [[2; 0]; [0; 2]]%float
                  ltac:(vm_compute; reflexivity))).
Defined.

Lemma readline_no_newline (s : string) :
  count_char newline s = 0%nat -> readline s = (s, "").
Proof.
  induction s as [|c s IH]; simpl; trivial.
  destruct (Ascii.eqb c newline); simpl; [discriminate|].
  intros H. now rewrite (IH H).
Qed.

(** X3: a file without any newline, the empty file among them, is read without
    an error: the whole text is the header and there is no row. *)
Theorem X3_file_without_newline_has_no_rows
    (R : Runtime) (path text : string) (w : world) :
  count_char newline text = 0%nat ->
  files w path = Some text ->
  readInteractionFile R path w = (Ok (text, [], []), w).
Proof.
  intros Hn Hf. unfold readInteractionFile, bind, read_file, lift. rewrite Hf.
  unfold read_interaction_text. now rewrite (readline_no_newline _ Hn).
Qed.

(** X3 on an empty file. *)
Lemma X3_empty_file_witness :
  readInteractionFile sample_runtime "empty.bed"
    {| files := fun _ => Some ""; written := []; logged := [] |}
  = (Ok ("", [], []), {| files := fun _ => Some ""; written := []; logged := [] |}).
Proof.
  exact (X3_file_without_newline_has_no_rows sample_runtime "empty.bed" ""
           {| files := fun _ => Some ""; written := []; logged := [] |} eq_refl eq_refl).
Defined.

(* ===================================================================== *)
(** * Further properties of the output paths *)

Lemma append_inj_l (a b c : string) : a ++ b = a ++ c -> b = c.
Proof. induction a as [|x a IH]; simpl; [trivial|]. intros [= H]. auto. Qed.

Lemma length_append (a b : string) :
  String.length (a ++ b) = (String.length a + String.length b)%nat.
Proof. induction a as [|x a IH]; simpl; congruence. Qed.

Lemma append_inj_r (a b c : string) : a ++ c = b ++ c -> a = b.
Proof.
  revert b. induction a as [|x a IH]; intros [|y b] H; trivial.
  - apply (f_equal String.length) in H. simpl in H. rewrite length_append in H. lia.
  - apply (f_equal String.length) in H. simpl in H. rewrite length_append in H. lia.
  - simpl in H. injection H as -> H. f_equal. now apply IH.
Qed.

(** X4: for every output name the three report paths are there and are
    pairwise different, so no report overwrites another. *)
Theorem X4_output_paths_pairwise_distinct (outFileName : string) :
  exists outRejectedH0 outAcceptedH0 outNoTest,
    output_paths outFileName = Ok (outRejectedH0, outAcceptedH0, outNoTest)
    /\ outRejectedH0 <> outAcceptedH0
    /\ outRejectedH0 <> outNoTest
    /\ outAcceptedH0 <> outNoTest.
Proof.
  unfold output_paths. destruct (split_head outFileName) as [t ->]. cbn.
  do 3 eexists. split; [reflexivity|].
  repeat split; intros H; apply append_inj_l in H; discriminate.
Qed.

(** X5: two output names give the same three report paths exactly when they
    agree up to their first ['.']: whatever follows the first ['.'] of the
    name has no effect on where the reports go. *)
Theorem X5_output_paths_depend_on_first_segment (name1 name2 : string) :
  output_paths name1 = output_paths name2
  <-> before_first_dot name1 = before_first_dot name2.
Proof.
  unfold output_paths.
  destruct (split_head name1) as [t1 ->]. destruct (split_head name2) as [t2 ->]. cbn.
  split.
  - intros [= H _ _]. now apply append_inj_r in H.
  - now intros ->.
Qed.

(* ===================================================================== *)
(** * Further properties of the two tests *)

Lemma chisquare_loop_counter (R : Runtime) (cv : float)
    (gs : list (list float * list float)) :
  forall tr c tr' c',
  for_each (chisquare_row R cv) gs (tr, c) = Ok (tr', c') ->
  exists new,
    tr' = (tr ++ new)%list
    /\ c' = (c + length (filter is_untested new))%nat
    /\ forallb well_formed new = true.
Proof.
  induction gs as [|[g1 g2] gs IH]; intros tr c tr' c'; cbn [for_each].
  - intros [= <- <-]. exists []. rewrite app_nil_r. simpl. auto.
  - destruct (chisquare_row R cv (tr, c) (g1, g2)) as [[tr1 c1]|e] eqn:E; cbn [rbind];
      [|discriminate].
    intros Hrun. destruct (IH _ _ _ _ Hrun) as (new & -> & -> & Hw).
    revert E. unfold chisquare_row.
    destruct (chi2_contingency R [g1; g2]) as [[x p]|[]]; try discriminate;
      [destruct (float_ge x cv)|]; intros [= <- <-];
      eexists (_ :: new); rewrite <- app_assoc;
      cbn [app filter is_untested fst length forallb well_formed andb]; rewrite Hw;
      (split; [reflexivity | split; [simpl; lia | reflexivity]]).
Qed.

Lemma fisher_loop_new (R : Runtime) (pAlpha : float)
    (gs : list (list float * list float)) :
  forall tr tr',
  for_each (fisher_row R pAlpha) gs tr = Ok tr' ->
  exists new, tr' = (tr ++ new)%list /\ forallb well_formed new = true.
Proof.
  induction gs as [|[g1 g2] gs IH]; intros tr tr'; cbn [for_each].
  - intros [= <-]. exists []. now rewrite app_nil_r.
  - destruct (fisher_row R pAlpha tr (g1, g2)) as [tr1|e] eqn:E; cbn [rbind];
      [|discriminate].
    intros Hrun. destruct (IH _ _ Hrun) as (new & -> & Hw).
    revert E. unfold fisher_row.
    destruct (fisher_exact R (np_ceil_table [g1; g2])) as [[x p]|[]]; try discriminate;
      [destruct (float_le p pAlpha)|]; intros [= <-];
      eexists (_ :: new); rewrite <- app_assoc;
      cbn [app forallb well_formed andb]; rewrite Hw;
      (split; reflexivity).
Qed.

(** The world after a test that returns. *)
Lemma run_statistic_test_world
    (R : Runtime) (t : statistic_test) (data1 data2 : list (list float))
    (pAlpha : float) (w w' : world) (test_result : list verdict) :
  run_statistic_test R t data1 data2 pAlpha w = (Ok test_result, w') ->
  forallb well_formed test_result = true
  /\ files w' = files w
  /\ written w' = written w
  /\ logged w' = (logged w ++ skipped_log t test_result)%list.
Proof.
  destruct t; unfold run_statistic_test, skipped_log.
  - unfold lift, fisher_exact_test. intros [= H <-].
    destruct (fisher_loop_new R pAlpha _ _ _ H) as (new & -> & Hw).
    rewrite app_nil_r. auto.
  - unfold chisquare_test, bind, lift.
    destruct (for_each (chisquare_row R (chi2_ppf R (PrimFloat.sub PrimFloat.one pAlpha)))
                (combine data1 data2) ([], 0%nat)) as [[tr0 c0]|e] eqn:E; [|discriminate].
    destruct (chisquare_loop_counter R _ _ _ _ _ _ E) as (new & -> & -> & Hw).
    cbn [app Nat.add].
    destruct (length (filter is_untested new)) as [|n] eqn:Hk; cbn;
      intros [= <- <-]; rewrite Hk; cbn.
    + rewrite app_nil_r. auto.
    + auto.
Qed.

(** X6: whenever a test returns, it has written no file, and every verdict
    has a p-value exactly when it is not Untested. The chi-squared strategy
    has then logged one message, whose number is the number of Untested
    verdicts in the result, when that number is not zero, and nothing when it
    is zero; the Fisher strategy logs nothing, whatever the number of Untested
    verdicts. *)
Theorem X6_test_log_counts_untested
    (R : Runtime) (t : statistic_test) (data1 data2 : list (list float))
    (pAlpha : float) (w w' : world) (test_result : list verdict) :
  run_statistic_test R t data1 data2 pAlpha w = (Ok test_result, w') ->
  forallb well_formed test_result = true
  /\ files w' = files w
  /\ written w' = written w
  /\ logged w' = (logged w ++ skipped_log t test_result)%list.
Proof. apply run_statistic_test_world. Qed.

(** X6 on the sample runtime: of two rows the first is degenerate, and the
    message logged says one. *)
Lemma X6_test_log_witness :
  logged (snd (run_statistic_test sample_runtime test_chi2
                 [[0; 0]; [2; 0]]%float [[5; 5]; [0; 2]]%float 0.05%float empty_world))
  = [skipped_message 1].
Proof.
  exact (proj2 (proj2 (proj2
    (X6_test_log_counts_untested sample_runtime test_chi2
       [[0; 0]; [2; 0]]%float [[5; 5]; [0; 2]]%float 0.05%float empty_world
       (snd (run_statistic_test sample_runtime test_chi2
               [[0; 0]; [2; 0]]%float [[5; 5]; [0; 2]]%float 0.05%float empty_world))
       [Untested; Rejected 0.2%float]
       ltac:(vm_compute; reflexivity))))).
Defined.

Lemma chisquare_loop_prefix (R : Runtime) (cv : float)
    (gs : list (list float * list float)) :
  forall tr c,
  forallb (fun g => value_or_ValueError (chi2_contingency R [fst g; snd g])) gs = true ->
  exists tr' c', for_each (chisquare_row R cv) gs (tr, c) = Ok (tr', c').
Proof.
  induction gs as [|[g1 g2] gs IH]; intros tr c H; cbn [for_each forallb fst snd] in *.
  - now do 2 eexists.
  - apply andb_true_iff in H. destruct H as [H1 H2].
    rewrite (chisquare_row_verdict _ _ _ _ _ _ H1). cbn [rbind]. now apply IH.
Qed.

Lemma fisher_loop_prefix (R : Runtime) (pAlpha : float)
    (gs : list (list float * list float)) :
  forall tr,
  forallb (fun g => value_or_ValueError (fisher_exact R (np_ceil_table [fst g; snd g]))) gs
    = true ->
  exists tr', for_each (fisher_row R pAlpha) gs tr = Ok tr'.
Proof.
  induction gs as [|[g1 g2] gs IH]; intros tr H; cbn [for_each forallb fst snd] in *.
  - now eexists.
  - apply andb_true_iff in H. destruct H as [H1 H2].
    rewrite (fisher_row_verdict _ _ _ _ _ H1). cbn [rbind]. now apply IH.
Qed.

Lemma forallb_map_comp {A B : Type} (f : B -> bool) (g : A -> B) (l : list A) :
  forallb f (map g l) = forallb (fun x => f (g x)) l.
Proof. induction l as [|x l IH]; simpl; congruence. Qed.

Lemma nth_error_decompose {A : Type} (l : list A) (i : nat) (a : A) :
  nth_error l i = Some a -> l = (firstn i l ++ a :: skipn (S i) l)%list.
Proof.
  revert i. induction l as [|x l IH]; intros [|i]; simpl; try discriminate.
  - now intros [= ->].
  - intros H. f_equal. now apply IH.
Qed.

(** X7: the [try] blocks catch [ValueError] and nothing else. When the test
    of some row raises another exception, and the rows before it are tested or
    skipped, the strategy ends with that exception: no verdict is returned,
    and the chi-squared strategy logs nothing, even for rows it skipped
    before. *)
Theorem X7_other_exceptions_end_the_test
    (R : Runtime) (data1 data2 : list (list float)) (pAlpha : float) (w : world)
    (i : nat) (t : table) (e : exn) :
  e <> ValueError ->
  (forallb (fun t => value_or_ValueError (chi2_contingency R t))
           (firstn i (chi2_tables data1 data2)) = true ->
   nth_error (chi2_tables data1 data2) i = Some t ->
   chi2_contingency R t = Raise e ->
   chisquare_test R data1 data2 pAlpha w = (Raise e, w))
  /\
  (forallb (fun t => value_or_ValueError (fisher_exact R t))
           (firstn i (fisher_tables data1 data2)) = true ->
   nth_error (fisher_tables data1 data2) i = Some t ->
   fisher_exact R t = Raise e ->
   fisher_exact_test R data1 data2 pAlpha = Raise e).
Proof.
  intros He. split.
  - unfold chi2_tables. intros Hpre Hi Ht.
    rewrite nth_error_map in Hi.
    destruct (nth_error (combine data1 data2) i) as [[g1 g2]|] eqn:Hg; [|discriminate].
    injection Hi as <-. cbn [fst snd] in Ht.
    rewrite firstn_map, forallb_map_comp in Hpre.
    unfold chisquare_test, bind, lift.
    rewrite (nth_error_decompose _ _ _ Hg), for_each_app.
    destruct (chisquare_loop_prefix R (chi2_ppf R (PrimFloat.sub PrimFloat.one pAlpha))
                _ [] 0%nat Hpre) as (tr' & c' & ->).
    cbn [rbind for_each]. unfold chisquare_row at 1. rewrite Ht.
    destruct e; try reflexivity. congruence.
  - unfold fisher_tables. intros Hpre Hi Ht.
    rewrite nth_error_map in Hi.
    destruct (nth_error (combine data1 data2) i) as [[g1 g2]|] eqn:Hg; [|discriminate].
    injection Hi as <-. cbn [fst snd] in Ht.
    rewrite firstn_map, forallb_map_comp in Hpre.
    unfold fisher_exact_test.
    rewrite (nth_error_decompose _ _ _ Hg), for_each_app.
    destruct (fisher_loop_prefix R pAlpha _ [] Hpre) as (tr' & ->).
    cbn [rbind for_each]. unfold fisher_row at 1.
    change (np_ceil_table [g1; g2]) with [map np_ceil g1; map np_ceil g2].
    change (np_ceil_table [g1; g2]) with [map np_ceil g1; map np_ceil g2] in Ht.
    rewrite Ht. destruct e; try reflexivity. congruence.
Qed.

(** X7 on the faulty runtime: the first row is skipped, the second raises,
    and nothing is logged. *)
Lemma X7_other_exceptions_witness :
  chisquare_test faulty_runtime [[0; 0]; [nan; 1]; [1; 1]]%float
      [[5; 5]; [1; 1]; [1; 1]]%float 0.05%float empty_world
    = (Raise OtherError, empty_world)
  /\ fisher_exact_test faulty_runtime [[0; 0]; [nan; 1]; [1; 1]]%float
       [[5; 5]; [1; 1]; [1; 1]]%float 0.05%float
     = Raise OtherError.
Proof.
  split.
  - apply (proj1 (X7_other_exceptions_end_the_test faulty_runtime
                    [[0; 0]; [nan; 1]; [1; 1]]%float [[5; 5]; [1; 1]; [1; 1]]%float
                    0.05%float empty_world 1 [[nan; 1]; [1; 1]]%float OtherError
                    ltac:(discriminate)));
      vm_compute; reflexivity.
  - apply (proj2 (X7_other_exceptions_end_the_test faulty_runtime
                    [[0; 0]; [nan; 1]; [1; 1]]%float [[5; 5]; [1; 1]; [1; 1]]%float
                    0.05%float empty_world 1 [[nan; 1]; [1; 1]]%float OtherError
                    ltac:(discriminate)));
      vm_compute; reflexivity.
Defined.

(* ===================================================================== *)
(** * Further properties of main *)









(* ===================================================================== *)
(** * Further properties of the writer *)

Lemma split_line (l rest : string) :
  count_char newline l = 0%nat ->
  split newline (l ++ NL ++ rest) = l :: split newline rest.
Proof. intros H. now apply split_app_sep. Qed.

Lemma result_header_lines (R : Runtime) (pRejected : option bool)
    (pViewpoint1 pViewpoint2 : list string) (pAlpha : float) (pTest : string) :
  result_header R pRejected pViewpoint1 pViewpoint2 pAlpha pTest
  = fold_right (fun l rest => l ++ NL ++ rest) (NL ++ NL ++ NL)
      (header_lines R pRejected pViewpoint1 pViewpoint2 pAlpha pTest).
Proof.
  unfold result_header, header_lines, partition_sentence, partition_line, NL.
  cbn [join fold_right].
  destruct pRejected as [[|]|]; rewrite !append_assoc; cbn [append]; reflexivity.
Qed.

(** X10: when the version, the test name, the labels and the printed alpha
    hold no newline, the header of a result file is nine comment lines, each
    starting with ['#'], followed by three empty lines; its sixth line names
    the chi-squared test whatever the test is. The text after the
    header starts with the header line of the first input file. *)
Theorem X10_header_is_nine_comment_lines
    (R : Runtime) (pData : list triple) (pRejected : option bool)
    (pHeaderOld pHeaderNew : string) (pViewpoint1 pViewpoint2 : list string)
    (pAlpha : float) (pTest : string) :
  count_char newline (version R) = 0%nat ->
  count_char newline pTest = 0%nat ->
  count_char newline (join " " pViewpoint1) = 0%nat ->
  count_char newline (join " " pViewpoint2) = 0%nat ->
  count_char newline (str_of_float R pAlpha) = 0%nat ->
  split newline (result_header R pRejected pViewpoint1 pViewpoint2 pAlpha pTest)
    = (header_lines R pRejected pViewpoint1 pViewpoint2 pAlpha pTest
       ++ [""; ""; ""; ""])%list
  /\ forallb is_comment (header_lines R pRejected pViewpoint1 pViewpoint2 pAlpha pTest)
     = true
  /\ result_text R pData pRejected pHeaderOld pHeaderNew pViewpoint1 pViewpoint2
       pAlpha pTest
     = unlines (map (fun l => l ++ NL)
                  (header_lines R pRejected pViewpoint1 pViewpoint2 pAlpha pTest))
       ++ NL ++ NL ++ NL ++ pHeaderOld ++ blocks pData.
Proof.
  intros Hv Ht H1 H2 Ha.
  assert (L2 : count_char newline (partition_line pRejected pTest) = 0%nat).
  { unfold partition_line. destruct pRejected as [[|]|];
      rewrite !count_char_app, Ht; reflexivity. }
  split; [|split].
  - rewrite result_header_lines. unfold header_lines. cbn [fold_right app].
    do 9 (rewrite split_line
            by first [ assumption
                     | rewrite ?count_char_app, ?Hv, ?H1, ?H2, ?Ha; reflexivity ]).
    reflexivity.
  - unfold header_lines, partition_line. now destruct pRejected as [[|]|].
  - rewrite result_text_layout, result_header_lines. unfold header_lines, unlines.
    cbn [fold_right map]. now rewrite !append_assoc.
Qed.

(** X10 on the first report of the sample run. *)
Lemma X10_header_witness :
  length (split newline
            (result_header sample_runtime (Some true) ["chr1"; "100"; "200"; "r1"]
               ["chr1"; "100"; "200"; "r1"] 0.05%float "fisher")) = 13%nat.
Proof.
  rewrite (proj1 (X10_header_is_nine_comment_lines sample_runtime [] (Some true) "" ""
                    ["chr1"; "100"; "200"; "r1"] ["chr1"; "100"; "200"; "r1"]
                    0.05%float "fisher" eq_refl eq_refl eq_refl eq_refl
                    ltac:(vm_compute; reflexivity))).
  reflexivity.
Defined.

(* ===================================================================== *)
(** * The fields at the two ends of a row *)

Lemma lstrip_first (s : string) (c : ascii) :
  first_char (lstrip s) = Some c -> isspace c = false.
Proof.
  induction s as [|x s IH]; simpl; [discriminate|].
  destruct (isspace x) eqn:E; [exact IH|]. simpl. now intros [= <-].
Qed.

Lemma rstrip_first (s : string) (c : ascii) :
  first_char (rstrip s) = Some c -> first_char s = Some c.
Proof.
  destruct s as [|x s]; simpl; trivial.
  destruct (rstrip s); [destruct (isspace x)|]; simpl; trivial. discriminate.
Qed.

Lemma rstrip_last (s : string) (c : ascii) :
  last_char (rstrip s) = Some c -> isspace c = false.
Proof.
  induction s as [|x s IH]; simpl; [discriminate|].
  destruct (rstrip s) as [|y r] eqn:E.
  - destruct (isspace x) eqn:Ex; simpl; [discriminate|]. now intros [= <-].
  - exact IH.
Qed.

Lemma split_first_empty (sep : ascii) (s : string) :
  hd "" (split sep s) = "" -> s = "" \/ first_char s = Some sep.
Proof.
  destruct s as [|c s]; simpl; [now left|].
  destruct (Ascii.eqb c sep) eqn:E.
  - apply Ascii.eqb_eq in E. subst. now right.
  - destruct (split sep s); simpl; discriminate.
Qed.

Lemma split_last_empty (sep : ascii) (s : string) :
  last (split sep s) "" = "" -> s = "" \/ last_char s = Some sep.
Proof.
  induction s as [|c s IH]; [now left|]. intros H. right.
  cbn [split] in H. revert H.
  pose proof (split_not_nil sep s) as Hne.
  destruct (Ascii.eqb c sep) eqn:E.
  - apply Ascii.eqb_eq in E. subst c.
    destruct (split sep s) as [|h t] eqn:Es; [congruence|].
    change (last ("" :: h :: t) "") with (last (h :: t) "").
    intros H. destruct (IH H) as [-> | Hl]; [reflexivity|].
    destruct s; [discriminate | exact Hl].
  - destruct (split sep s) as [|h t] eqn:Es; [congruence|].
    destruct t as [|h' t].
    + simpl. discriminate.
    + change (last (String c h :: h' :: t) "") with (last (h :: h' :: t) "").
      intros H. destruct (IH H) as [-> | Hl]; [discriminate|].
      destruct s; [discriminate | exact Hl].
Qed.

(** X11: the line is stripped before it is split, and a tab is whitespace, so
    a row never starts or ends with an empty field: the fields of every line
    are the single empty field (the line is blank) or have a first and a last
    field that are not empty. Empty columns at the end of a line are dropped
    before the fields are counted. *)
Theorem X11_rows_have_no_empty_end_fields (line : string) :
  fields line = [""]
  \/ (hd "" (fields line) <> "" /\ last (fields line) "" <> "").
Proof.
  unfold fields. destruct (strip line) as [|c r] eqn:E; [now left|]. right.
  assert (Htab : isspace tab = true) by reflexivity.
  split; intros H.
  - apply split_first_empty in H. destruct H as [H|H]; [discriminate|].
    rewrite <- E in H. unfold strip in H.
    apply rstrip_first, lstrip_first in H. congruence.
  - apply split_last_empty in H. destruct H as [H|H]; [discriminate|].
    rewrite <- E in H. unfold strip in H. apply rstrip_last in H. congruence.
Qed.
